(** * RAP specification: schema projector and instance validation

    A shallow embedding of the two driver scripts of the repository
    ([scripts/generate_schemas.py], [scripts/validate_examples.py]) and of
    the typed model declarations under [src/rap_spec].

    The model classes are declarations: each class is embedded as the list
    of its fields (name, alias, required or not, annotation with its
    constraints), read off the source line by line, in a module named
    after its source file.  What the scripts do with a class is behaviour
    of the pydantic library the classes derive from:

    - [model_validate] is embedded as [validate], an interpreter of the
      field declarations that follows pydantic's default mode, the one the
      package configures: lax conversions (no [strict] anywhere), fields
      read under their alias or their name ([populate_by_name=True] in
      every class), unknown keys ignored (no [extra] anywhere), defaults
      not validated.  The verdict is a boolean: [true] when the call
      returns, [false] when it raises [ValidationError].
    - [model_json_schema] and [json.dump] are parameters of the projector:
      what [scripts/generate_schemas.py] itself does with their results is
      embedded in full.

    A Python float is a double: it is represented by the rational it
    holds, or is one of the infinities or NaN.  A Python [str] is
    represented by its UTF-8 encoding.  Python dicts are association lists
    in insertion order.  Where the embedding follows the library rather
    than the repository (conversions of strings to numbers, URLs,
    patterns), it follows pydantic 2.13 with pydantic-core 2.46. *)

From Stdlib Require Import List String Ascii Bool ZArith QArith Lia.
Import ListNotations.
Local Open Scope string_scope.
Set Warnings "-register-all".

(** ** JSON values as [json.load] returns them *)

(** A Python [float].  [json.load] reads the literals [NaN], [Infinity]
    and [-Infinity], and a number too large for a double, as the
    non-finite values. *)
Inductive pyfloat : Type :=
| Finite (q : Q)
| Infinite (negative : bool)
| NaN.

Coercion Finite : Q >-> pyfloat.

(** Python distinguishes [int] from [float].  An object is a Python
    [dict]: keys are unique and keep their insertion order. *)
Inductive json : Type :=
| JNull
| JBool (b : bool)
| JInt (z : Z)
| JFloat (x : pyfloat)
| JStr (s : string)
| JArr (l : list json)
| JObj (d : list (string * json)).

Definition pydict := list (string * json).

Module Dict.

(** [d.get(k)] *)
Fixpoint get {A} (k : string) (d : list (string * A)) : option A :=
  match d with
  | [] => None
  | (k', v) :: r => if String.eqb k k' then Some v else get k r
  end.

(** [k in d] *)
Definition mem {A} (k : string) (d : list (string * A)) : bool :=
  match get k d with Some _ => true | None => false end.

(** [d[k] = v]: an existing key keeps its position, a new key is
    appended. *)
Fixpoint set {A} (k : string) (v : A) (d : list (string * A))
  : list (string * A) :=
  match d with
  | [] => [(k, v)]
  | (k', v') :: r =>
      if String.eqb k k' then (k', v) :: r else (k', v') :: set k v r
  end.

(** [d.pop(k, None)], the returned value dropped. *)
Fixpoint pop {A} (k : string) (d : list (string * A))
  : list (string * A) :=
  match d with
  | [] => []
  | (k', v') :: r =>
      if String.eqb k k' then pop k r else (k', v') :: pop k r
  end.

Definition keys {A} (d : list (string * A)) : list string := map fst d.

End Dict.

(** ** Python's [in] operator, as [post_process_schema] uses it *)

(** [needle in hay] on two strings: substring test. *)
Fixpoint str_contains (needle hay : string) : bool :=
  String.prefix needle hay
  || match hay with
     | EmptyString => false
     | String _ rest => str_contains needle rest
     end.

(** The exceptions the scripts can meet: [TypeError] from the [in] operator,
    [OSError] (with its subclasses [FileExistsError], [NotADirectoryError]
    and [IsADirectoryError]) from the file system. *)
Inductive exn : Type := TypeError | OSError.

Inductive result (A : Type) : Type :=
| Ok (a : A)
| Raise (e : exn).
Arguments Ok {A} a.
Arguments Raise {A} e.

Definition json_eqb_str (s : string) (v : json) : bool :=
  match v with JStr s' => String.eqb s s' | _ => false end.

(** ["..." in x]: substring of a string, element of a list, key of a dict;
    every other operand is not a container and raises [TypeError]. *)
Definition py_in (needle : string) (x : json) : result bool :=
  match x with
  | JStr s => Ok (str_contains needle s)
  | JArr l => Ok (existsb (json_eqb_str needle) l)
  | JObj d => Ok (Dict.mem needle d)
  | _ => Raise TypeError
  end.

(** ** scripts/generate_schemas.py *)

Definition DRAFT_2020_12 : string :=
  "https://json-schema.org/draft/2020-12/schema".

(** [post_process_schema(schema, schema_id)] *)
Definition post_process_schema (schema : pydict) (schema_id : string)
  : result pydict :=
  let schema := Dict.set "$schema" (JStr DRAFT_2020_12) schema in
  let schema := Dict.set "$id" (JStr schema_id) schema in
  let schema := Dict.pop "additionalProperties" schema in
  if Dict.mem "properties" schema then
    match py_in "ResearchProduct"
            (match Dict.get "title" schema with
             | Some t => t
             | None => JStr EmptyString
             end) with
    | Ok true => Ok (Dict.set "additionalProperties" (JBool false) schema)
    | Ok false => Ok schema
    | Raise e => Raise e
    end
  else Ok schema.

(** *** The file tree the projector writes to *)

(** A path is the list of its components below the repository root. *)
Definition path := list string.

Record filesystem : Type := MkFs {
  fs_dirs : list path;
  fs_files : list (path * string)
}.

Definition path_eqb (p q : path) : bool :=
  if list_eq_dec string_dec p q then true else false.

(** [Path.parent] *)
Definition parent (p : path) : path := removelast p.

Definition add_dir (p : path) (ds : list path) : list path :=
  if existsb (path_eqb p) ds then ds else ds ++ [p].

(** The ancestors of a directory, outermost first, the directory itself
    last. *)
Fixpoint ancestors (p : path) : list path :=
  match p with
  | [] => []
  | c :: r => [c] :: map (cons c) (ancestors r)
  end.

(** [p.mkdir(parents=True, exist_ok=True)] *)
Definition mkdir_p (p : path) (ds : list path) : list path :=
  fold_left (fun acc a => add_dir a acc) (ancestors p) ds.

(** [open(p, "w")] followed by the writes and the close: the file holds
    exactly [content] afterwards.  An existing entry is overwritten. *)
Fixpoint write_file (p : path) (content : string)
  (fl : list (path * string)) : list (path * string) :=
  match fl with
  | [] => [(p, content)]
  | (p', c') :: r =>
      if path_eqb p p' then (p', content) :: r
      else (p', c') :: write_file p content r
  end.

Fixpoint read_file (p : path) (fl : list (path * string)) : option string :=
  match fl with
  | [] => None
  | (p', c') :: r => if path_eqb p p' then Some c' else read_file p r
  end.

(** Is the path a regular file, a directory, of the tree? *)
Definition is_file (p : path) (fl : list (path * string)) : bool :=
  match read_file p fl with Some _ => true | None => false end.

Definition is_dir (p : path) (ds : list path) : bool :=
  existsb (path_eqb p) ds.

(** [mkdir(parents=True, exist_ok=True)] cannot make a directory where a
    regular file stands, nor below one: it then raises [FileExistsError] or
    [NotADirectoryError] at its first system call, before it has created
    anything. *)
Definition blocked (dir : path) (fl : list (path * string)) : bool :=
  existsb (fun a => is_file a fl) (ancestors dir).

Section Projector.

(** The class objects handed to [generate_schema]. *)
Variable model_class : Type.

(** [model_class.model_json_schema(mode="serialization", by_alias=True)]:
    pydantic's projection of a class to a fresh schema dict. *)
Variable model_json_schema : model_class -> pydict.

(** [json.dump(schema, f, indent=2, ensure_ascii=False)]: the text the
    standard library's encoder produces for a value. *)
Variable json_dump : json -> string.

(** [generate_schema(model_class, output_path, schema_id)].  The progress
    line printed at the end is not part of the state.  The tree records
    files and directories, and the calls fail as its shape makes them
    fail: [mkdir] raises when the parent directory or one of its ancestors
    is a regular file, and [open(output_path, "w")] raises
    [IsADirectoryError] when the output path is a directory; both are
    [OSError], and the file is not written.  (Permissions and quotas are
    not part of the tree.) *)
Definition generate_schema (m : model_class) (output_path : path)
  (schema_id : string) (fs : filesystem) : result filesystem :=
  let schema := model_json_schema m in
  match post_process_schema schema schema_id with
  | Raise e => Raise e
  | Ok schema =>
      if blocked (parent output_path) (fs_files fs) then Raise OSError
      else
        let dirs := mkdir_p (parent output_path) (fs_dirs fs) in
        if is_dir output_path dirs then Raise OSError
        else
          let text :=
            json_dump (JObj schema) ++ String "010"%char EmptyString in
          Ok (MkFs dirs (write_file output_path text (fs_files fs)))
  end.

(** The document a run leaves at [output_path]. *)
Definition generated_document (m : model_class) (output_path : path)
  (schema_id : string) (fs : filesystem) : option string :=
  match generate_schema m output_path schema_id fs with
  | Ok fs' => read_file output_path (fs_files fs')
  | Raise _ => None
  end.

End Projector.

(** ** Input conversions of pydantic's lax mode

    [scripts/validate_examples.py] calls [ResearchProduct.model_validate(data)]
    with no [strict] argument, and no [model_config] of the package sets
    [strict]: every field is validated in lax mode, where a number may be
    given as a string. *)

Definition is_digit (c : ascii) : bool :=
  (48 <=? nat_of_ascii c)%nat && (nat_of_ascii c <=? 57)%nat.

Definition is_upper (c : ascii) : bool :=
  (65 <=? nat_of_ascii c)%nat && (nat_of_ascii c <=? 90)%nat.

Definition is_lower (c : ascii) : bool :=
  (97 <=? nat_of_ascii c)%nat && (nat_of_ascii c <=? 122)%nat.

Definition lower_ascii (c : ascii) : ascii :=
  if is_upper c then ascii_of_nat (nat_of_ascii c + 32) else c.

Fixpoint lower_string (s : string) : string :=
  match s with
  | EmptyString => EmptyString
  | String c r => String (lower_ascii c) (lower_string r)
  end.

(** *** White space

    The characters with the Unicode property White_Space are stripped
    around a numeric string: the six ASCII ones, and those below in their
    UTF-8 encoding. *)

Definition is_space (c : ascii) : bool :=
  let n := nat_of_ascii c in
  (n =? 32)%nat || ((9 <=? n)%nat && (n <=? 13)%nat).

Definition byte_is (n : nat) (c : ascii) : bool := (nat_of_ascii c =? n)%nat.

(** U+0085 and U+00A0. *)
Definition space2 (c1 c2 : ascii) : bool :=
  byte_is 194 c1 && (byte_is 133 c2 || byte_is 160 c2).

(** U+1680, U+2000 to U+200A, U+2028, U+2029, U+202F, U+205F, U+3000. *)
Definition space3 (c1 c2 c3 : ascii) : bool :=
  (byte_is 225 c1 && byte_is 154 c2 && byte_is 128 c3)
  || (byte_is 226 c1 && byte_is 128 c2
      && (((128 <=? nat_of_ascii c3)%nat && (nat_of_ascii c3 <=? 138)%nat)
          || byte_is 168 c3 || byte_is 169 c3 || byte_is 175 c3))
  || (byte_is 226 c1 && byte_is 129 c2 && byte_is 159 c3)
  || (byte_is 227 c1 && byte_is 128 c2 && byte_is 128 c3).

Fixpoint drop_spaces (l : list ascii) : list ascii :=
  match l with
  | c1 :: r1 =>
      if is_space c1 then drop_spaces r1
      else
        match r1 with
        | c2 :: r2 =>
            if space2 c1 c2 then drop_spaces r2
            else
              match r2 with
              | c3 :: r3 => if space3 c1 c2 c3 then drop_spaces r3 else l
              | [] => l
              end
        | [] => l
        end
  | [] => []
  end.

(** The same from the end, on the reversed text. *)
Fixpoint drop_spaces_rev (l : list ascii) : list ascii :=
  match l with
  | c1 :: r1 =>
      if is_space c1 then drop_spaces_rev r1
      else
        match r1 with
        | c2 :: r2 =>
            if space2 c2 c1 then drop_spaces_rev r2
            else
              match r2 with
              | c3 :: r3 =>
                  if space3 c3 c2 c1 then drop_spaces_rev r3 else l
              | [] => l
              end
        | [] => l
        end
  | [] => []
  end.

Definition trim (l : list ascii) : list ascii :=
  rev (drop_spaces_rev (rev (drop_spaces l))).

(** *** Decimal literals *)

Fixpoint span_digits (l : list ascii) : list ascii * list ascii :=
  match l with
  | c :: r =>
      if is_digit c
      then let (ds, rest) := span_digits r in (c :: ds, rest)
      else ([], l)
  | [] => ([], [])
  end.

Definition digit_val (c : ascii) : Z := Z.of_nat (nat_of_ascii c) - 48.

Definition digits_value (ds : list ascii) : Z :=
  fold_left (fun acc c => 10 * acc + digit_val c)%Z ds 0%Z.

(** An optional sign: [true] for a minus. *)
Definition take_sign (l : list ascii) : bool * list ascii :=
  match l with
  | "-"%char :: r => (true, r)
  | "+"%char :: r => (false, r)
  | _ => (false, l)
  end.

Definition signed (neg : bool) (z : Z) : Z := if neg then (- z)%Z else z.

(** The exponent part of a decimal literal: empty, or [e] or [E], an
    optional sign and at least one digit, up to the end of the text. *)
Definition parse_exponent (l : list ascii) : option Z :=
  match l with
  | [] => Some 0%Z
  | c :: r =>
      if Ascii.eqb c "e" || Ascii.eqb c "E" then
        let (neg, r1) := take_sign r in
        match span_digits r1 with
        | ((_ :: _) as ds, []) => Some (signed neg (digits_value ds))
        | _ => None
        end
      else None
  end.

(** A decimal literal [[+-] digits [. digits] [exponent]] with at least one
    digit in the mantissa, and the rational it denotes. *)
Definition decimal_value (l : list ascii) : option Q :=
  let (neg, l1) := take_sign l in
  let (ip, l2) := span_digits l1 in
  let (fp, l3) :=
    match l2 with
    | "."%char :: r => span_digits r
    | _ => ([], l2)
    end in
  match (ip ++ fp)%list with
  | [] => None
  | ds =>
      match parse_exponent l3 with
      | None => None
      | Some e =>
          let m := signed neg (digits_value ds) in
          let sh := (e - Z.of_nat (List.length fp))%Z in
          Some (if (0 <=? sh)%Z
                then inject_Z (m * 10 ^ sh)
                else Qmake m (Z.to_pos (10 ^ (- sh))))
      end
  end.

(** *** Rounding to a double *)

(** For positive [n], the exponent [e] with [2^e <= n/d < 2^(e+1)]. *)
Definition floor_log2 (n : Z) (d : positive) : Z :=
  let e := (Z.log2 n - Z.log2 (Zpos d))%Z in
  if (if (0 <=? e)%Z
      then (Zpos d * 2 ^ e <=? n)%Z
      else (Zpos d <=? n * 2 ^ (- e))%Z)
  then e
  else (e - 1)%Z.

(** The integer nearest to [a/b], the even one of two equally near. *)
Definition round_half_even (a b : Z) : Z :=
  let q := (a / b)%Z in
  match (2 * (a mod b) ?= b)%Z with
  | Lt => q
  | Gt => (q + 1)%Z
  | Eq => if Z.even q then q else (q + 1)%Z
  end.

(** [m * 2^k]. *)
Definition scale2 (m k : Z) : Q :=
  if (0 <=? k)%Z then inject_Z (m * 2 ^ k)
  else Qmake m (Z.to_pos (2 ^ (- k))).

(** The double nearest to a rational: 53 bits of mantissa, exponents from
    -1022 (below, the spacing stays [2^-1074]) to 1023 (above, infinity). *)
Definition round_double (q : Q) : pyfloat :=
  let n := Z.abs (Qnum q) in
  if (n =? 0)%Z then Finite 0
  else
    let e := Z.max (floor_log2 n (Qden q)) (-1022) in
    let k := (e - 52)%Z in
    let m := if (0 <=? k)%Z
             then round_half_even n (Zpos (Qden q) * 2 ^ k)
             else round_half_even (n * 2 ^ (- k)) (Zpos (Qden q)) in
    if (1024 <=? e)%Z || ((e =? 1023)%Z && (m =? 2 ^ 53)%Z)
    then Infinite (Qnum q <? 0)%Z
    else Finite (Qred (scale2 (signed (Qnum q <? 0)%Z m) k)).

(** *** A string where a float is expected *)

(** The text of a float: an optional sign, then [inf], [infinity] or [nan]
    in any case, or a decimal literal, which is rounded. *)
Definition parse_float (l : list ascii) : option pyfloat :=
  let (neg, l1) := take_sign l in
  let word := lower_string (string_of_list_ascii l1) in
  if String.eqb word "inf" || String.eqb word "infinity"
  then Some (Infinite neg)
  else if String.eqb word "nan" then Some NaN
  else
    match decimal_value l with
    | Some q => Some (round_double q)
    | None => None
    end.

Definition is_underscore (c : ascii) : bool := Ascii.eqb c "_".

Fixpoint doubled_underscore (l : list ascii) : bool :=
  match l with
  | c1 :: ((c2 :: _) as r) =>
      (is_underscore c1 && is_underscore c2) || doubled_underscore r
  | _ => false
  end.

(** Digit groups: when the text has underscores, none at either end and
    no two in a row, the text without them. *)
Definition strip_underscores (l : list ascii) : option (list ascii) :=
  if match l with c :: _ => is_underscore c | [] => false end
     || match rev l with c :: _ => is_underscore c | [] => false end
     || negb (existsb is_underscore l)
     || doubled_underscore l
  then None
  else Some (filter (fun c => negb (is_underscore c)) l).

(** The text is read with the white space around it stripped; failing
    that, and if it groups digits with underscores, it is read without
    the underscores, as it stands. *)
Definition str_as_float (s : string) : option pyfloat :=
  let l := list_ascii_of_string s in
  match parse_float (trim l) with
  | Some x => Some x
  | None =>
      match strip_underscores l with
      | Some l' => parse_float l'
      | None => None
      end
  end.

(** *** A string where an int is expected *)

Definition is_nonzero_digit (c : ascii) : bool :=
  (49 <=? nat_of_ascii c)%nat && (nat_of_ascii c <=? 57)%nat.

(** After a first zero: further zeros and underscores are skipped up to a
    digit or a minus sign; a point keeps the character before it; when
    nothing else follows, the last character skipped is kept. *)
Fixpoint skip_zeros (prev : ascii) (l : list ascii) : option (list ascii) :=
  match l with
  | [] => Some [prev]
  | c :: r =>
      if Ascii.eqb c "0" || is_underscore c then skip_zeros c r
      else if is_nonzero_digit c || Ascii.eqb c "-" then Some l
      else if Ascii.eqb c "." then Some (prev :: l)
      else None
  end.

Definition strip_leading_zeros (l : list ascii) : option (list ascii) :=
  match l with
  | [] => None
  | c :: r =>
      if Ascii.eqb c "0" then skip_zeros c r
      else if is_nonzero_digit c then Some l
      else None
  end.

(** The text up to its first point, and what follows the point. *)
Fixpoint split_at_point (l : list ascii)
  : list ascii * option (list ascii) :=
  match l with
  | [] => ([], None)
  | c :: r =>
      if Ascii.eqb c "." then ([], Some r)
      else let (a, b) := split_at_point r in (c :: a, b)
  end.

(** A point followed by zeros only, and at least one, is dropped. *)
Definition strip_decimal_zeros (l : list ascii) : list ascii :=
  match split_at_point l with
  | (a, Some ((_ :: _) as zeros)) =>
      if forallb (Ascii.eqb "0") zeros then a else l
  | _ => l
  end.

(** What is left must be digits, with no zero before another digit. *)
Definition plain_int (l : list ascii) : option Z :=
  match span_digits l with
  | ((c :: r) as ds, []) =>
      if Ascii.eqb c "0" && negb (match r with [] => true | _ => false end)
      then None
      else Some (digits_value ds)
  | _ => None
  end.

(** The longest text the library reads as an int. *)
Definition INT_MAX_STR_DIGITS : nat := 4300.

(** The white space around the text is stripped and a sign taken; leading
    zeros, a point followed by zeros and underscores that group digits
    are removed; what is left, with the minus sign, is at most 4300
    characters of digits. *)
Definition str_as_int (s : string) : option Z :=
  let l := trim (list_ascii_of_string s) in
  let (neg, l1) :=
    match l with
    | "+"%char :: r => (false, r)
    | "-"%char :: r => (true, r)
    | _ => (false, l)
    end in
  match strip_leading_zeros l1 with
  | None => None
  | Some l2 =>
      let l3 := strip_decimal_zeros l2 in
      let l4 := match strip_underscores l3 with
                | Some l' => l'
                | None => l3
                end in
      let (neg', l5) :=
        match l4 with
        | "-"%char :: r => (true, r)
        | _ => (false, l4)
        end in
      if neg && neg' then None
      else if (INT_MAX_STR_DIGITS
               <? List.length l5 + (if neg || neg' then 1 else 0))%nat
      then None
      else
        match plain_int l5 with
        | Some z => Some (signed (neg || neg') z)
        | None => None
        end
  end.

(** *** Numbers where a number is expected *)

(** A Python int converts to a float unless it overflows the double
    range. *)
Definition int_fits_float (z : Z) : bool :=
  (Z.abs z <? 2 ^ 1024 - 2 ^ 970)%Z.

(** The value a float field reads from an input: a float, an int (rounded),
    a bool (as 0 or 1) or a numeric string. *)
Definition float_value (v : json) : option pyfloat :=
  match v with
  | JFloat x => Some x
  | JInt z => if int_fits_float z then Some (round_double (inject_Z z))
              else None
  | JBool b => Some (Finite (if b then 1 else 0))
  | JStr s => str_as_float s
  | _ => None
  end.

(** The value an int field reads: an int, a bool, a finite float with no
    fractional part strictly between [-2^63] and [2^63], or a string. *)
Definition int_value (v : json) : option Z :=
  match v with
  | JInt z => Some z
  | JBool b => Some (if b then 1 else 0)%Z
  | JFloat (Finite q) =>
      let r := Qred q in
      if Pos.eqb (Qden r) 1
         && (- 2 ^ 63 <? Qnum r)%Z && (Qnum r <? 2 ^ 63)%Z
      then Some (Qnum r)
      else None
  | JStr s => str_as_int s
  | _ => None
  end.

Definition BOOL_TRUE : list string := ["1"; "t"; "true"; "on"; "y"; "yes"].
Definition BOOL_FALSE : list string := ["0"; "f"; "false"; "off"; "n"; "no"].

Definition str_mem (s : string) (l : list string) : bool :=
  existsb (String.eqb s) l.

(** A bool field reads a bool, the numbers 0 and 1, and the usual spellings
    of true and false. *)
Definition bool_ok (v : json) : bool :=
  match v with
  | JBool _ => true
  | JInt z => (z =? 0)%Z || (z =? 1)%Z
  | JFloat (Finite q) => Qeq_bool q 0 || Qeq_bool q 1
  | JStr s =>
      str_mem (lower_string s) BOOL_TRUE || str_mem (lower_string s) BOOL_FALSE
  | _ => false
  end.

(** [strip_prefix p s]: the rest of [s] after its prefix [p]. *)
Fixpoint strip_prefix (p s : string) : option string :=
  match p, s with
  | EmptyString, _ => Some s
  | String a p', String b s' =>
      if Ascii.eqb a b then strip_prefix p' s' else None
  | String _ _, EmptyString => None
  end.

Definition host_start (rest : string) : bool :=
  match rest with
  | EmptyString => false
  | String c _ =>
      negb (Ascii.eqb c "/" || Ascii.eqb c "?" || Ascii.eqb c "#"
            || Ascii.eqb c ":" || Ascii.eqb c "@" || is_space c)
  end.

(** [HttpUrl]: the URL parser behind the type is outside the repository.
    The embedding keeps what the documents of this development need of it:
    the scheme is [http] or [https], a host follows the [//], and the text
    is at most 2083 characters long. *)
Definition http_url_ok (s : string) : bool :=
  (String.length s <=? 2083)%nat
  && match strip_prefix "https://" s with
     | Some rest => host_start rest
     | None =>
         match strip_prefix "http://" s with
         | Some rest => host_start rest
         | None => false
         end
     end.

(** ** Characters

    Patterns are matched character by character: a string is decoded from
    its UTF-8 encoding into code points. *)

Definition continuation_byte (c : ascii) : option N :=
  let n := N_of_ascii c in
  if (128 <=? n)%N && (n <? 192)%N then Some (n - 128)%N else None.

(** The code points of a well-formed UTF-8 text: no overlong form, no
    surrogate, nothing above U+10FFFF. *)
Fixpoint utf8_decode (l : list ascii) : option (list N) :=
  match l with
  | [] => Some []
  | c1 :: r1 =>
      let n1 := N_of_ascii c1 in
      if (n1 <? 128)%N then option_map (cons n1) (utf8_decode r1)
      else
        match r1 with
        | [] => None
        | c2 :: r2 =>
            if (192 <=? n1)%N && (n1 <? 224)%N then
              match continuation_byte c2 with
              | Some n2 =>
                  let cp := ((n1 - 192) * 64 + n2)%N in
                  if (128 <=? cp)%N
                  then option_map (cons cp) (utf8_decode r2)
                  else None
              | None => None
              end
            else
              match r2 with
              | [] => None
              | c3 :: r3 =>
                  if (224 <=? n1)%N && (n1 <? 240)%N then
                    match continuation_byte c2, continuation_byte c3 with
                    | Some n2, Some n3 =>
                        let cp := ((n1 - 224) * 4096 + n2 * 64 + n3)%N in
                        if (2048 <=? cp)%N
                           && negb ((55296 <=? cp)%N && (cp <=? 57343)%N)
                        then option_map (cons cp) (utf8_decode r3)
                        else None
                    | _, _ => None
                    end
                  else
                    match r3 with
                    | [] => None
                    | c4 :: r4 =>
                        if (240 <=? n1)%N && (n1 <? 248)%N then
                          match continuation_byte c2, continuation_byte c3,
                                continuation_byte c4 with
                          | Some n2, Some n3, Some n4 =>
                              let cp := ((n1 - 240) * 262144 + n2 * 4096
                                         + n3 * 64 + n4)%N in
                              if (65536 <=? cp)%N && (cp <=? 1114111)%N
                              then option_map (cons cp) (utf8_decode r4)
                              else None
                          | _, _, _ => None
                          end
                        else None
                    end
              end
        end
  end.

Definition code_points (s : string) : option (list N) :=
  utf8_decode (list_ascii_of_string s).

Definition in_ranges (ranges : list (N * N)) (cp : N) : bool :=
  existsb (fun r => (fst r <=? cp)%N && (cp <=? snd r)%N) ranges.

(** [\d] in a pattern: a decimal digit of any script (general category
    Nd, Unicode 16). *)
Definition DECIMAL_DIGITS : list (N * N) :=
  [(48, 57); (1632, 1641); (1776, 1785); (1984, 1993); (2406, 2415);
   (2534, 2543); (2662, 2671); (2790, 2799); (2918, 2927); (3046, 3055);
   (3174, 3183); (3302, 3311); (3430, 3439); (3558, 3567); (3664, 3673);
   (3792, 3801); (3872, 3881); (4160, 4169); (4240, 4249); (6112, 6121);
   (6160, 6169); (6470, 6479); (6608, 6617); (6784, 6793); (6800, 6809);
   (6992, 7001); (7088, 7097); (7232, 7241); (7248, 7257); (42528, 42537);
   (43216, 43225); (43264, 43273); (43472, 43481); (43504, 43513);
   (43600, 43609); (44016, 44025); (65296, 65305); (66720, 66729);
   (68912, 68921); (68928, 68937); (69734, 69743); (69872, 69881);
   (69942, 69951); (70096, 70105); (70384, 70393); (70736, 70745);
   (70864, 70873); (71248, 71257); (71360, 71369); (71376, 71395);
   (71472, 71481); (71904, 71913); (72016, 72025); (72688, 72697);
   (72784, 72793); (73040, 73049); (73120, 73129); (73552, 73561);
   (90416, 90425); (92768, 92777); (92864, 92873); (93008, 93017);
   (93552, 93561); (118000, 118009); (120782, 120831); (123200, 123209);
   (123632, 123641); (124144, 124153); (124401, 124410); (125264, 125273);
   (130032, 130041)]%N.

Definition is_decimal_digit (cp : N) : bool := in_ranges DECIMAL_DIGITS cp.

(** [\s] in a pattern: the characters with the property White_Space. *)
Definition WHITE_SPACE : list (N * N) :=
  [(9, 13); (32, 32); (133, 133); (160, 160); (5760, 5760); (8192, 8202);
   (8232, 8233); (8239, 8239); (8287, 8287); (12288, 12288)]%N.

Definition is_white_space (cp : N) : bool := in_ranges WHITE_SPACE cp.

Fixpoint span_decimal (l : list N) : list N * list N :=
  match l with
  | c :: r =>
      if is_decimal_digit c
      then let (ds, rest) := span_decimal r in (c :: ds, rest)
      else ([], l)
  | [] => ([], [])
  end.

(** The code point of the full stop. *)
Definition FULL_STOP : N := 46%N.

(** ** Field declarations *)

(** The numeric constraints a [Field(...)] call can carry: [ge], [gt],
    [le]. *)
Record bounds : Type := MkBounds {
  b_ge : option Q;
  b_gt : option Q;
  b_le : option Q
}.

Definition unbounded : bounds := MkBounds None None None.
Definition at_least (lo : Q) : bounds := MkBounds (Some lo) None None.
Definition above (lo : Q) : bounds := MkBounds None (Some lo) None.
Definition between (lo hi : Q) : bounds := MkBounds (Some lo) None (Some hi).

Definition in_bounds (b : bounds) (q : Q) : bool :=
  match b_ge b with Some lo => Qle_bool lo q | None => true end
  && match b_gt b with Some lo => negb (Qle_bool q lo) | None => true end
  && match b_le b with Some hi => Qle_bool q hi | None => true end.

Definition no_bound (o : option Q) : bool :=
  match o with Some _ => false | None => true end.

(** The bounds on a Python float: an infinity is compared like a number
    beyond every bound, and NaN fails every comparison. *)
Definition float_in_bounds (b : bounds) (x : pyfloat) : bool :=
  match x with
  | Finite q => in_bounds b q
  | Infinite negative =>
      (no_bound (b_ge b) || negb negative)
      && (no_bound (b_gt b) || negb negative)
      && (no_bound (b_le b) || negative)
  | NaN => no_bound (b_ge b) && no_bound (b_gt b) && no_bound (b_le b)
  end.

(** The annotation of a field, with the constraints of its [Field(...)]
    call attached to the type they apply to.  A class used as an annotation
    carries its name and its fields. *)
Inductive ftype : Type :=
| TAny
| TStr (pattern : option (string -> bool))
| TInt (ge : option Z)
| TFloat (b : bounds)
| TBool
| TLiteral (values : list string)
| THttpUrl
| TOptional (t : ftype)
| TList (t : ftype) (min_length max_length : option nat)
| TDict (t : ftype)
| TUnion (ts : list ftype)
| TModel (name : string) (fields : list field)
with field : Type :=
| Field (name : string) (alias : option string) (required : bool)
    (t : ftype).

Definition field_name (f : field) : string :=
  match f with Field n _ _ _ => n end.

Definition field_alias (f : field) : option string :=
  match f with Field _ a _ _ => a end.

Definition field_type (f : field) : ftype :=
  match f with Field _ _ _ t => t end.

(** [Field(..., alias=a)] on a required field, [Field(...)] likewise without
    alias, and their counterparts with a default. *)
Definition required_as (name alias : string) (t : ftype) : field :=
  Field name (Some alias) true t.
Definition required (name : string) (t : ftype) : field :=
  Field name None true t.
Definition default_as (name alias : string) (t : ftype) : field :=
  Field name (Some alias) false t.
Definition default (name : string) (t : ftype) : field :=
  Field name None false t.

Definition cls_name (m : ftype) : string :=
  match m with TModel n _ => n | _ => EmptyString end.

Definition cls_fields (m : ftype) : list field :=
  match m with TModel _ fs => fs | _ => [] end.

(** A subclass: a field declared again replaces the inherited one in its
    place, new fields follow the inherited ones. *)
Definition find_field (n : string) (fs : list field) : option field :=
  find (fun f => String.eqb n (field_name f)) fs.

Definition subclass (name : string) (base : ftype) (own : list field)
  : ftype :=
  TModel name
    (map (fun f => match find_field (field_name f) own with
                   | Some f' => f'
                   | None => f
                   end) (cls_fields base)
     ++ filter (fun f => match find_field (field_name f) (cls_fields base) with
                         | Some _ => false
                         | None => true
                         end) own)%list.

(** ** Validation *)

(** Every [model_config] of the package sets [populate_by_name=True] and
    nothing else that bears on validation: a field is looked up under its
    alias first and under its own name otherwise, and keys that belong to
    no field are ignored. *)
Definition field_input (d : pydict) (name : string) (alias : option string)
  : option json :=
  match alias with
  | Some a =>
      match Dict.get a d with
      | Some v => Some v
      | None => Dict.get name d
      end
  | None => Dict.get name d
  end.

Definition length_ok {A} (l : list A) (min_length max_length : option nat)
  : bool :=
  match min_length with Some n => (n <=? List.length l)%nat | None => true end
  && match max_length with Some n => (List.length l <=? n)%nat | None => true end.

(** [validate t v]: does the input [v] validate against the annotation [t]?
    A union accepts what one of its members accepts; a class accepts a dict
    each of whose fields is either present and valid, or absent and not
    required. *)
Fixpoint validate (t : ftype) (v : json) {struct t} : bool :=
  match t with
  | TAny => true
  | TStr pattern =>
      match v with
      | JStr s => match pattern with Some p => p s | None => true end
      | _ => false
      end
  | TInt ge =>
      match int_value v with
      | Some z => match ge with Some lo => (lo <=? z)%Z | None => true end
      | None => false
      end
  | TFloat b =>
      match float_value v with
      | Some x => float_in_bounds b x
      | None => false
      end
  | TBool => bool_ok v
  | TLiteral values =>
      match v with
      | JStr s => str_mem s values
      | _ => false
      end
  | THttpUrl =>
      match v with
      | JStr s => http_url_ok s
      | _ => false
      end
  | TOptional t' =>
      match v with
      | JNull => true
      | _ => validate t' v
      end
  | TList t' min_length max_length =>
      match v with
      | JArr l => forallb (validate t') l && length_ok l min_length max_length
      | _ => false
      end
  | TDict t' =>
      match v with
      | JObj d => forallb (fun kv => validate t' (snd kv)) d
      | _ => false
      end
  | TUnion ts =>
      (fix any (ts : list ftype) : bool :=
         match ts with
         | [] => false
         | t' :: r => validate t' v || any r
         end) ts
  | TModel _ fields =>
      match v with
      | JObj d =>
          (fix all (fs : list field) : bool :=
             match fs with
             | [] => true
             | Field name alias req t' :: r =>
                 match field_input d name alias with
                 | Some x => validate t' x
                 | None => negb req
                 end && all r
             end) fields
      | _ => false
      end
  end.

(** [cls.model_validate(data)]: [true] when it returns, [false] when it
    raises [ValidationError]. *)
Definition model_validate (cls : ftype) (data : json) : bool :=
  validate cls data.

(** ** The model classes of [src/rap_spec] *)

Definition Str : ftype := TStr None.
Definition Int : ftype := TInt None.
Definition Float : ftype := TFloat unbounded.
Definition Optional (t : ftype) : ftype := TOptional t.
Definition List_ (t : ftype) : ftype := TList t None None.
Definition HttpUrl : ftype := THttpUrl.
Definition Dict_str_Any : ftype := TDict TAny.

(** [type_: Literal[tag] = Field(default=tag, alias="@type")] *)
Definition type_tag (tag : string) : field :=
  default_as "type_" "@type" (TLiteral [tag]).

Definition RAP_CONTEXT : string := "https://rap-spec.evidencepub.io/v1/context".

(** [context: Union[Literal[RAP_CONTEXT], Dict[str, Any]]
      = Field(..., alias="@context")] *)
Definition context_field : field :=
  required_as "context" "@context"
    (TUnion [TLiteral [RAP_CONTEXT]; Dict_str_Any]).

Module common.

Definition Unit : ftype :=
  TModel "Unit"
    [ type_tag "Unit";
      required "symbol" Str;
      default "label" (Optional Str);
      default "uri" (Optional HttpUrl) ].

Definition QuantityValue : ftype :=
  TModel "QuantityValue"
    [ type_tag "QuantityValue";
      required "value" (TFloat (at_least 0));
      required "unit" Str ].

Definition SoftwareApplication : ftype :=
  TModel "SoftwareApplication"
    [ type_tag "SoftwareApplication";
      required "name" Str;
      default "version" (Optional Str);
      default "url" (Optional HttpUrl) ].

Definition ProcessingStep : ftype :=
  TModel "ProcessingStep"
    [ type_tag "ProcessingStep";
      required_as "step_order" "stepOrder" (TInt (Some 1%Z));
      required "name" Str;
      default_as "software_agent" "softwareAgent"
        (Optional SoftwareApplication);
      default "parameters" (Optional Dict_str_Any) ].

Definition ProcessingProvenance : ftype :=
  TModel "ProcessingProvenance"
    [ type_tag "ProcessingProvenance";
      required_as "was_derived_from" "wasDerivedFrom" Dict_str_Any;
      required_as "processing_steps" "processingSteps"
        (List_ ProcessingStep) ].

Definition ComputeEnvironment : ftype :=
  TModel "ComputeEnvironment"
    [ type_tag "ComputeEnvironment";
      default_as "container_image" "containerImage"
        (Optional Dict_str_Any) ].

Definition CreativeWork : ftype :=
  TModel "CreativeWork"
    [ type_tag "CreativeWork";
      required_as "id_" "@id" HttpUrl;
      default "name" (Optional Str) ].

Definition DataDownload : ftype :=
  TModel "DataDownload"
    [ type_tag "DataDownload";
      required_as "content_url" "contentUrl" HttpUrl;
      default_as "encoding_format" "encodingFormat" (Optional Str);
      default_as "content_size" "contentSize" (Optional Str) ].

Definition PropertyValue : ftype :=
  TModel "PropertyValue"
    [ type_tag "PropertyValue";
      required_as "property_id" "propertyID" Str;
      required "value" Str ].

Definition ScholarlyArticle : ftype :=
  TModel "ScholarlyArticle"
    [ type_tag "ScholarlyArticle";
      default "identifier" (Optional Dict_str_Any);
      default "name" (Optional Str) ].

End common.

Module vector_data.

Definition Statistics : ftype :=
  TModel "Statistics"
    [ default "mean" (Optional Float);
      default "median" (Optional Float);
      default "std" (Optional Float);
      default "min" (Optional Float);
      default "max" (Optional Float);
      default "count" (Optional Int) ].

Definition VectorData : ftype :=
  TModel "VectorData"
    [ type_tag "VectorData";
      required "values" (TList Float (Some 1%nat) None);
      required "unit" (TUnion [common.Unit; HttpUrl]);
      default "length" (Optional (TInt (Some 1%Z)));
      default "labels" (Optional (List_ Str));
      default "statistics" (Optional Statistics);
      default "metadata" (Optional Dict_str_Any) ].

End vector_data.

Module base.

Definition BaseMeasurement : ftype :=
  TModel "BaseMeasurement"
    [ type_tag "Measurement";
      required_as "measurement_type" "measurementType" Str;
      required_as "specific_measure" "specificMeasure" Str;
      default "session" (Optional Str);
      default "unit" (Optional (TUnion [common.Unit; HttpUrl]));
      default_as "quantity_kind" "quantityKind" (Optional HttpUrl) ].

End base.

Module timeseries.

Definition TimeDimension : ftype :=
  TModel "TimeDimension"
    [ required "length" (TInt (Some 1%Z));
      default "start" (Optional Float);
      default "end" (Optional Float) ].

Definition Dimensions : ftype :=
  TModel "Dimensions"
    [ default "time" (Optional TimeDimension) ].

Definition SamplingRate : ftype :=
  TModel "SamplingRate"
    [ required "value" (TFloat (above 0));
      required "unit" common.Unit ].

Definition Duration : ftype :=
  TModel "Duration"
    [ required "value" (TFloat (at_least 0));
      required "unit" common.Unit ].

Definition Channels : ftype :=
  TModel "Channels"
    [ required "count" (TInt (Some 1%Z));
      default_as "type_" "type" (Optional Str);
      default "labels" (Optional (List_ Str)) ].

Definition TimeseriesMeasurement : ftype :=
  subclass "TimeseriesMeasurement" base.BaseMeasurement
    [ default_as "measurement_type" "measurementType"
        (TLiteral ["timeseries"]);
      required_as "specific_measure" "specificMeasure" Str;
      default "dimensions" (Optional Dimensions);
      default_as "sampling_rate" "samplingRate" (Optional SamplingRate);
      default "duration" (Optional Duration);
      default "channels" (Optional Channels) ].

End timeseries.

Module relaxometry_mri.

Definition SpatialResolution : ftype :=
  TModel "SpatialResolution"
    [ required "value" (TFloat (at_least 0));
      required "unit" common.Unit ].

Definition FieldStrength : ftype :=
  TModel "FieldStrength"
    [ required "value" (TFloat (at_least 0));
      required "unit" common.Unit ].

Definition AcquisitionParameters : ftype :=
  TModel "AcquisitionParameters"
    [ default_as "field_strength" "fieldStrength" (Optional FieldStrength);
      default "scanner" (Optional Str);
      default "sequence" (Optional Str);
      default "TR" (Optional (TFloat (at_least 0)));
      default "TE" (Optional (TUnion [Float; List_ Float]));
      default "TI" (Optional (TUnion [Float; List_ Float]));
      default_as "flip_angle" "flipAngle"
        (Optional (TFloat (between 0 180))) ].

Definition RelaxometryMRIMeasurement : ftype :=
  subclass "RelaxometryMRIMeasurement" base.BaseMeasurement
    [ default_as "measurement_type" "measurementType"
        (TLiteral ["relaxometry_mri"]);
      required_as "specific_measure" "specificMeasure" Str;
      default_as "anatomical_region" "anatomicalRegion" (Optional Str);
      default_as "region_type" "regionType"
        (Optional (TLiteral ["tissue_class"; "anatomical_roi";
                             "functional_roi"; "voxel_wise"]));
      default_as "vector_length" "vectorLength"
        (Optional (TInt (Some 1%Z)));
      default_as "spatial_resolution" "spatialResolution"
        (Optional SpatialResolution);
      default_as "coordinate_system" "coordinateSystem" (Optional Str);
      default_as "acquisition_parameters" "acquisitionParameters"
        (Optional AcquisitionParameters) ].

End relaxometry_mri.

Module research_product.

Definition DemographicData : ftype :=
  TModel "DemographicData"
    [ default "age" (Optional Dict_str_Any);
      default "sex" (Optional (TLiteral ["M"; "F"; "other"; "unknown"]));
      default "group" (Optional Str) ].

Definition ParticipantReference : ftype :=
  TModel "ParticipantReference"
    [ type_tag "Participant";
      required_as "id_" "@id" HttpUrl;
      required "identifier" Str;
      default_as "demographic_data" "demographicData"
        (Optional DemographicData) ].

Definition ResearchProduct : ftype :=
  TModel "ResearchProduct"
    [ context_field;
      type_tag "ResearchProduct";
      required_as "id_" "@id" HttpUrl;
      default "identifier" (Optional common.PropertyValue);
      required_as "product_type" "productType"
        (TLiteral ["processed_timeseries"; "processed_scalar";
                   "processed_image"; "processed_spatial";
                   "processed_categorical"; "processed_vector"]);
      required_as "processing_level" "processingLevel"
        (TLiteral ["raw"; "preprocessed"; "analysis_ready"; "aggregated"]);
      default "data" (Optional vector_data.VectorData);
      required "participant" ParticipantReference;
      required "measurement"
        (TUnion [relaxometry_mri.RelaxometryMRIMeasurement;
                 timeseries.TimeseriesMeasurement]);
      default "provenance" (Optional common.ProcessingProvenance);
      default_as "compute_environment" "computeEnvironment"
        (Optional common.ComputeEnvironment);
      default "license" (Optional common.CreativeWork);
      default "distribution" (Optional common.DataDownload);
      default "citation" (Optional common.ScholarlyArticle);
      default_as "quality_metrics" "qualityMetrics"
        (Optional Dict_str_Any) ].

End research_product.

Module participant.

(** [pattern=r"^[A-Za-z0-9_-]+$"]: one or more characters, each a
    letter, a digit, an underscore or a hyphen. *)
Definition identifier_char (c : ascii) : bool :=
  is_upper c || is_lower c || is_digit c
  || Ascii.eqb c "_" || Ascii.eqb c "-".

Definition identifier_pattern (s : string) : bool :=
  match list_ascii_of_string s with
  | [] => false
  | l => forallb identifier_char l
  end.

Definition Age : ftype :=
  TModel "Age"
    [ type_tag "QuantityValue";
      required "value" (TFloat (at_least 0));
      default "unit" Str ].

Definition DemographicData : ftype :=
  TModel "DemographicData"
    [ default "age" (Optional Age);
      default "sex" (Optional (TLiteral ["M"; "F"; "other"; "unknown"]));
      default "gender" (Optional Str);
      default "group" (Optional Str);
      default "ethnicity" (Optional Str);
      default "handedness"
        (Optional (TLiteral ["left"; "right"; "ambidextrous"; "unknown"]));
      default "species" (Optional Str);
      default "strain" (Optional Str);
      default_as "genetic_modification" "geneticModification"
        (Optional Str) ].

Definition Medication : ftype :=
  TModel "Medication"
    [ default "name" (Optional Str);
      default "dosage" (Optional Str);
      default "duration" (Optional Str) ].

Definition Assessment : ftype :=
  TModel "Assessment"
    [ default "name" (Optional Str);
      default "score" (Optional Float);
      default "date" (Optional Str) ].

Definition ClinicalData : ftype :=
  TModel "ClinicalData"
    [ default "diagnosis" (Optional (List_ Str));
      default_as "medication_history" "medicationHistory"
        (Optional (List_ Medication));
      default "assessments" (Optional (List_ Assessment)) ].

Definition ProductsAvailable : ftype :=
  TModel "ProductsAvailable"
    [ default "count" (Optional (TInt (Some 0%Z)));
      default "measures" (Optional (List_ Str));
      default "sessions" (Optional (List_ Str));
      default_as "by_measure" "byMeasure" (Optional (TDict Int));
      default_as "by_session" "bySession" (Optional (TDict Int)) ].

Definition SessionDuration : ftype :=
  TModel "SessionDuration"
    [ default "value" (Optional Float);
      default "unit" Str ].

Definition Environment : ftype :=
  TModel "Environment"
    [ default "temperature" (Optional Float);
      default "lighting" (Optional Str);
      default_as "noise_level" "noiseLevel" (Optional Str) ].

Definition SessionMetadata : ftype :=
  TModel "SessionMetadata"
    [ default "session" (Optional Str);
      default "date" (Optional Str);
      default "duration" (Optional SessionDuration);
      default "notes" (Optional Str);
      default "experimenter" (Optional Str);
      default "environment" (Optional Environment) ].

Definition Links : ftype :=
  TModel "Links"
    [ default "products" (Optional HttpUrl);
      default "measures" (Optional HttpUrl);
      default "sessions" (Optional HttpUrl) ].

Definition Consent : ftype :=
  TModel "Consent"
    [ default_as "consent_date" "consentDate" (Optional Str);
      default_as "consent_version" "consentVersion" (Optional Str);
      default_as "data_sharing" "dataSharing"
        (Optional (TLiteral ["public"; "restricted"; "private"]));
      default "restrictions" (Optional (List_ Str)) ].

Definition Participant : ftype :=
  TModel "Participant"
    [ context_field;
      type_tag "Participant";
      required_as "id_" "@id" HttpUrl;
      required "identifier" (TStr (Some identifier_pattern));
      default_as "demographic_data" "demographicData"
        (Optional DemographicData);
      default_as "enrollment_date" "enrollmentDate" (Optional Str);
      default "status"
        (Optional (TLiteral ["active"; "completed"; "withdrawn";
                             "excluded"]));
      default_as "exclusion_reason" "exclusionReason" (Optional Str);
      default_as "clinical_data" "clinicalData" (Optional ClinicalData);
      default_as "products_available" "productsAvailable"
        (Optional ProductsAvailable);
      default_as "session_metadata" "sessionMetadata"
        (Optional (List_ SessionMetadata));
      default "links" (Optional Links);
      default "consent" (Optional Consent);
      default_as "privacy_level" "privacyLevel"
        (Optional (TLiteral ["anonymous"; "pseudonymous";
                             "identifiable"])) ].

End participant.

Module collection.

Definition AppliedFilters : ftype :=
  TModel "AppliedFilters"
    [ default "participant" (Optional (TUnion [Str; List_ Str]));
      default "measure" (Optional (TUnion [Str; List_ Str]));
      default "session" (Optional (TUnion [Str; List_ Str]));
      default "group" (Optional Str);
      default_as "processing_level" "processingLevel"
        (Optional (TLiteral ["raw"; "preprocessed"; "analysis_ready";
                             "aggregated"])) ].

Definition AvailableFilters : ftype :=
  TModel "AvailableFilters"
    [ default "participant" (Optional (List_ Str));
      default "measure" (Optional (List_ Str));
      default "session" (Optional (List_ Str));
      default "group" (Optional (List_ Str));
      default_as "processing_level" "processingLevel"
        (Optional (List_ Str)) ].

Definition Filter : ftype :=
  TModel "Filter"
    [ default "applied" (Optional AppliedFilters);
      default "available" (Optional AvailableFilters) ].

Definition ProductSummary : ftype :=
  TModel "ProductSummary"
    [ type_tag "ResearchProduct";
      required_as "id_" "@id" HttpUrl;
      required "identifier" Str;
      default "participant" (Optional Dict_str_Any);
      default "measurement" (Optional Dict_str_Any);
      default "summary" (Optional Dict_str_Any);
      default "distribution" (Optional Dict_str_Any) ].

Definition PaginationLinks : ftype :=
  TModel "PaginationLinks"
    [ default "first" (Optional HttpUrl);
      default "prev" (Optional HttpUrl);
      default "next" (Optional HttpUrl);
      default "last" (Optional HttpUrl) ].

Definition Pagination : ftype :=
  TModel "Pagination"
    [ default "page" (Optional (TInt (Some 1%Z)));
      default_as "page_size" "pageSize" (Optional (TInt (Some 1%Z)));
      default_as "total_pages" "totalPages" (Optional (TInt (Some 1%Z)));
      default "links" (Optional PaginationLinks) ].

Definition SortedBy : ftype :=
  TModel "SortedBy"
    [ default "field" (Optional Str);
      default "order" (Optional (TLiteral ["asc"; "desc"])) ].

Definition ResearchProductCollection : ftype :=
  TModel "ResearchProductCollection"
    [ context_field;
      type_tag "ResearchProductCollection";
      required_as "id_" "@id" HttpUrl;
      required_as "total_items" "totalItems" (TInt (Some 0%Z));
      default "filter" (Optional Filter);
      required "member"
        (List_ (TUnion [research_product.ResearchProduct; ProductSummary]));
      default "pagination" (Optional Pagination);
      default_as "sorted_by" "sortedBy" (Optional SortedBy) ].

End collection.

Module aggregate.

Definition AggregateFilters : ftype :=
  TModel "AggregateFilters"
    [ default "participant" (Optional (TUnion [Str; List_ Str]));
      default "session" (Optional (TUnion [Str; List_ Str]));
      default "group" (Optional Str);
      default_as "age_range" "ageRange" (Optional (TDict Float)) ].

Definition MeanValue : ftype :=
  TModel "MeanValue"
    [ required "value" Float;
      default "units" (Optional Str) ].

Definition QuantileValues : ftype :=
  TModel "QuantileValues"
    [ default "q25" (Optional Float);
      default "q50" (Optional Float);
      default "q75" (Optional Float) ].

Definition ConfidenceInterval : ftype :=
  TModel "ConfidenceInterval"
    [ required "level" (TFloat (between 0 1));
      required "lower" Float;
      required "upper" Float ].

Definition Statistics : ftype :=
  TModel "Statistics"
    [ default "mean" (Optional (TUnion [Float; MeanValue]));
      default "median" (Optional Float);
      default "std" (Optional Float);
      default "sem" (Optional Float);
      default "variance" (Optional Float);
      default "min" (Optional Float);
      default "max" (Optional Float);
      default "range" (Optional (TList Float (Some 2%nat) (Some 2%nat)));
      default "quantiles" (Optional QuantileValues);
      default_as "confidence_interval" "confidenceInterval"
        (Optional ConfidenceInterval) ].

Definition Histogram : ftype :=
  TModel "Histogram"
    [ default "bins" (Optional (List_ Float));
      default "counts" (Optional (List_ Int)) ].

Definition KDE : ftype :=
  TModel "KDE"
    [ default "x" (Optional (List_ Float));
      default "y" (Optional (List_ Float)) ].

Definition Distribution : ftype :=
  TModel "Distribution"
    [ default "histogram" (Optional Histogram);
      default "kde" (Optional KDE) ].

Definition AggregateLinks : ftype :=
  TModel "AggregateLinks"
    [ default "products" (Optional HttpUrl);
      default_as "raw_data" "rawData" (Optional HttpUrl) ].

Definition AggregateGroup : ftype :=
  TModel "AggregateGroup"
    [ default "participant" (Optional Str);
      default "session" (Optional Str);
      default "group" (Optional Str);
      default_as "participant_count" "participantCount"
        (Optional (TInt (Some 0%Z)));
      default_as "product_count" "productCount"
        (Optional (TInt (Some 0%Z)));
      required "statistics" Statistics;
      default "distribution" (Optional Distribution);
      default "links" (Optional AggregateLinks) ].

Definition ComparisonGroup : ftype :=
  TModel "ComparisonGroup"
    [ default "name" (Optional Str);
      default_as "participant_count" "participantCount" (Optional Int);
      default "statistics" (Optional (TDict Float)) ].

Definition EffectSize : ftype :=
  TModel "EffectSize"
    [ required "measure"
        (TLiteral ["cohensD"; "hedgesG"; "glassD"; "eta-squared";
                   "omega-squared"]);
      required "value" Float ].

Definition StatisticalTest : ftype :=
  TModel "StatisticalTest"
    [ required "method"
        (TLiteral ["t-test"; "anova"; "mann-whitney"; "kruskal-wallis";
                   "chi-square"]);
      required "statistic" Float;
      required_as "p_value" "pValue" (TFloat (between 0 1));
      default "significant" (Optional TBool);
      default "alpha" (Optional Float);
      default_as "effect_size" "effectSize" (Optional EffectSize);
      default_as "degrees_of_freedom" "degreesOfFreedom"
        (Optional (TUnion [Float; List_ Float])) ].

Definition PostHocComparison : ftype :=
  TModel "PostHocComparison"
    [ default "group1" (Optional Str);
      default "group2" (Optional Str);
      default_as "p_value" "pValue" (Optional Float);
      default "adjusted" (Optional TBool);
      default_as "adjustment_method" "adjustmentMethod"
        (Optional (TLiteral ["bonferroni"; "holm"; "fdr_bh"; "fdr_by"])) ].

Definition Comparison : ftype :=
  TModel "Comparison"
    [ default "groups" (Optional (List_ ComparisonGroup));
      required "test" StatisticalTest;
      default_as "post_hoc" "postHoc" (Optional (List_ PostHocComparison)) ].

Definition AggregateMetadata : ftype :=
  TModel "AggregateMetadata"
    [ default_as "computed_at" "computedAt" (Optional Str);
      default_as "software_used" "softwareUsed" (Optional (TDict Str));
      default_as "excluded_products" "excludedProducts"
        (Optional (List_ (TDict Str))) ].

Definition AggregateStatistics : ftype :=
  TModel "AggregateStatistics"
    [ context_field;
      type_tag "AggregateStatistics";
      required_as "id_" "@id" HttpUrl;
      required "measure" Str;
      default "grouping" (Optional Str);
      default "filters" (Optional AggregateFilters);
      required "aggregates" (List_ AggregateGroup);
      default "comparison" (Optional Comparison);
      default "metadata" (Optional AggregateMetadata) ].

End aggregate.

Module api_descriptor.

(** [n] groups of one or more digits separated by single full stops. *)
Fixpoint dotted_digits (n : nat) (l : list N) : bool :=
  match n with
  | O => false
  | S n' =>
      match span_decimal l with
      | (_ :: _, []) => match n' with O => true | S _ => false end
      | (_ :: _, c :: r) =>
          if (c =? FULL_STOP)%N
          then match n' with O => false | S _ => dotted_digits n' r end
          else false
      | _ => false
      end
  end.

(** [pattern=r"^10\.\d{4,}/[\S]+$"] *)
Definition doi_pattern (s : string) : bool :=
  match strip_prefix "10." s with
  | Some rest =>
      match code_points rest with
      | Some l =>
          let (ds, r) := span_decimal l in
          (4 <=? List.length ds)%nat
          && match r with
             | c :: ((_ :: _) as tail) =>
                 (c =? 47)%N && forallb (fun x => negb (is_white_space x)) tail
             | _ => false
             end
      | None => false
      end
  | None => false
  end.

(** [pattern=r"^\d+\.\d+\.\d+$"] *)
Definition version_pattern (s : string) : bool :=
  match code_points s with
  | Some l => dotted_digits 3 l
  | None => false
  end.

(** [pattern=r"^\d+\.\d+$"] *)
Definition rap_spec_version_pattern (s : string) : bool :=
  match code_points s with
  | Some l => dotted_digits 2 l
  | None => false
  end.

Definition Paper : ftype :=
  TModel "Paper"
    [ required "doi" (TStr (Some doi_pattern));
      required "title" Str;
      default "authors" (Optional (List_ Str));
      default_as "publication_date" "publicationDate" (Optional Str) ].

Definition API : ftype :=
  TModel "API"
    [ required "version" (TStr (Some version_pattern));
      required_as "rap_spec_version" "rapSpecVersion"
        (TStr (Some rap_spec_version_pattern));
      required_as "base_url" "baseUrl" HttpUrl;
      default "documentation" (Optional HttpUrl) ].

Definition Endpoint : ftype :=
  TModel "Endpoint"
    [ required "path" Str;
      required "methods" (List_ (TLiteral ["GET"; "POST"; "PUT"; "DELETE"]));
      default "description" (Optional Str) ].

Definition ResearchAPIDescriptor : ftype :=
  TModel "ResearchAPIDescriptor"
    [ required_as "context" "@context" (TLiteral [RAP_CONTEXT]);
      type_tag "ResearchAPIDescriptor";
      required "paper" Paper;
      required "api" API;
      required "endpoints" (List_ Endpoint);
      default "license" (Optional Str);
      default_as "access_policy" "accessPolicy"
        (Optional (TLiteral ["open"; "authenticated"; "embargoed"])) ].

End api_descriptor.

(** ** The drivers *)

Definition SCHEMAS : string := "https://rap-spec.evidencepub.io/v1/schemas/".

(** The calls of [main()] in [scripts/generate_schemas.py], in order: the
    class, the output path below the repository root, the [$id]. *)
Definition schema_table : list (ftype * path * string) :=
  [ (base.BaseMeasurement,
     ["schemas"; "v1"; "measurements"; "base-measurement.json"],
     SCHEMAS ++ "measurements/base-measurement.json");
    (relaxometry_mri.RelaxometryMRIMeasurement,
     ["schemas"; "v1"; "measurements"; "relaxometry-mri.json"],
     SCHEMAS ++ "measurements/relaxometry-mri.json");
    (timeseries.TimeseriesMeasurement,
     ["schemas"; "v1"; "measurements"; "timeseries.json"],
     SCHEMAS ++ "measurements/timeseries.json");
    (vector_data.VectorData,
     ["schemas"; "v1"; "data-types"; "vector-data.json"],
     SCHEMAS ++ "data-types/vector-data.json");
    (research_product.ResearchProduct,
     ["schemas"; "v1"; "research-product.json"],
     SCHEMAS ++ "research-product.json");
    (participant.Participant,
     ["schemas"; "v1"; "participant.json"],
     SCHEMAS ++ "participant.json");
    (collection.ResearchProductCollection,
     ["schemas"; "v1"; "collection.json"],
     SCHEMAS ++ "collection.json");
    (aggregate.AggregateStatistics,
     ["schemas"; "v1"; "aggregate.json"],
     SCHEMAS ++ "aggregate.json");
    (api_descriptor.ResearchAPIDescriptor,
     ["schemas"; "v1"; "api-descriptor.json"],
     SCHEMAS ++ "api-descriptor.json") ].

(** [main()] of [scripts/generate_schemas.py]: the calls run in order and
    an exception raised by one of them ends the run. *)
Definition generate_all (model_json_schema : ftype -> pydict)
  (json_dump : json -> string) (fs : filesystem) : result filesystem :=
  fold_left
    (fun acc entry =>
       match acc with
       | Raise e => Raise e
       | Ok fs' =>
           let '(m, p, schema_id) := entry in
           generate_schema ftype model_json_schema json_dump m p schema_id fs'
       end)
    schema_table (Ok fs).

(** [validate_research_product(file_path)] of
    [scripts/validate_examples.py], on the content of the file: [None] when
    the file does not hold JSON, which raises in [load_json_file] and is
    caught with every other exception. *)
Definition validate_research_product (content : option json) : bool :=
  match content with
  | Some data => model_validate research_product.ResearchProduct data
  | None => false
  end.

(** [main()] of [scripts/validate_examples.py] on the example files found:
    the exit status. *)
Definition validate_examples (example_files : list (option json)) : Z :=
  match example_files with
  | [] => 1%Z
  | _ =>
      let invalid_count :=
        List.length
          (filter (fun f => negb (validate_research_product f)) example_files)
      in
      if (invalid_count =? 0)%nat then 0%Z else 1%Z
  end.

(** ** Auxiliary definitions for the statements *)

(** The check [validate] runs over the fields of a class, as a function of
    the input dict. *)
Fixpoint fields_ok (d : pydict) (fs : list field) : bool :=
  match fs with
  | [] => true
  | Field name alias req t :: r =>
      match field_input d name alias with
      | Some x => validate t x
      | None => negb req
      end && fields_ok d r
  end.

(** The keys under which some field of the list is looked up. *)
Fixpoint field_keys (fs : list field) : list string :=
  match fs with
  | [] => []
  | Field name (Some a) _ _ :: r => a :: name :: field_keys r
  | Field name None _ _ :: r => name :: field_keys r
  end.

Definition known_key (cls : ftype) (k : string) : bool :=
  str_mem k (field_keys (cls_fields cls)).

(** *** Example documents *)

Definition unit_ms : json := JObj [("symbol", JStr "ms")].

Definition timeseries_eeg : json :=
  JObj [("measurementType", JStr "timeseries");
        ("specificMeasure", JStr "eeg")].

Definition participant_ref (identifier : string) : json :=
  JObj [("@id", JStr "https://example.org/participants/sub-01");
        ("identifier", JStr identifier)].

(** A ResearchProduct document with its required fields only. *)
Definition product_doc (participant measurement : json) : pydict :=
  [("@context", JStr RAP_CONTEXT);
   ("@type", JStr "ResearchProduct");
   ("@id", JStr "https://example.org/products/1");
   ("productType", JStr "processed_vector");
   ("processingLevel", JStr "analysis_ready");
   ("participant", participant);
   ("measurement", measurement)].

Definition minimal_product : pydict :=
  product_doc (participant_ref "sub-01") timeseries_eeg.

(** A Participant document with its required fields only. *)
Definition participant_doc (identifier : string) : pydict :=
  [("@context", JStr RAP_CONTEXT);
   ("@type", JStr "Participant");
   ("@id", JStr "https://example.org/participants/sub-01");
   ("identifier", JStr identifier)].

Definition vector_doc (values : list json) : json :=
  JObj [("values", JArr values); ("unit", unit_ms)].

Definition confidence_interval_doc (level : json) : json :=
  JObj [("level", level); ("lower", JFloat 0); ("upper", JFloat 1)].

Definition acquisition_doc (flip_angle : json) : json :=
  JObj [("flipAngle", flip_angle)].

Definition statistical_test_doc (p_value : json) : json :=
  JObj [("method", JStr "t-test"); ("statistic", JFloat 2);
        ("pValue", p_value)].

Definition post_hoc_doc (p_value : json) : json :=
  JObj [("group1", JStr "control"); ("group2", JStr "treatment");
        ("pValue", p_value)].

Definition aggregate_doc (aggregates : list json) : json :=
  JObj [("@context", JStr RAP_CONTEXT);
        ("@type", JStr "AggregateStatistics");
        ("@id", JStr "https://example.org/aggregates/1");
        ("measure", JStr "t1_relaxation_time");
        ("aggregates", JArr aggregates)].

(** An AggregateStatistics document with one group, a test and one post-hoc
    comparison. *)
Definition aggregate_with_post_hoc (p_value : json) : json :=
  JObj [("@context", JStr RAP_CONTEXT);
        ("@type", JStr "AggregateStatistics");
        ("@id", JStr "https://example.org/aggregates/1");
        ("measure", JStr "t1_relaxation_time");
        ("aggregates", JArr [JObj [("statistics", JObj [])]]);
        ("comparison",
         JObj [("test", statistical_test_doc (JFloat (1 # 100)));
               ("postHoc", JArr [post_hoc_doc p_value])])].

(** The top-level keys pydantic emits for a class, with empty property
    schemas: enough of a raw schema to run the post-processing on. *)
Definition schema_outline (cls : ftype) : pydict :=
  [("properties", JObj []);
   ("title", JStr (cls_name cls));
   ("type", JStr "object")].

Definition newline : string := String "010"%char EmptyString.

Definition empty_fs : filesystem := MkFs [] [].

(** The first three statements of [post_process_schema]: both identifiers
    set, [additionalProperties] removed. *)
Definition schema_base (schema : pydict) (schema_id : string) : pydict :=
  Dict.pop "additionalProperties"
    (Dict.set "$id" (JStr schema_id)
       (Dict.set "$schema" (JStr DRAFT_2020_12) schema)).

(** A schema dict in the state [schema_base] leaves it in. *)
Definition normalized (b : pydict) (schema_id : string) : Prop :=
  Dict.get "$schema" b = Some (JStr DRAFT_2020_12)
  /\ Dict.get "$id" b = Some (JStr schema_id)
  /\ Dict.get "additionalProperties" b = None.

(** A stand-in for the encoder in examples: the top-level keys in order. *)
Definition outline_dump (j : json) : string :=
  match j with
  | JObj d => String.concat "," (Dict.keys d)
  | _ => EmptyString
  end.

(** The top-level [additionalProperties] entry of each document [main()]
    generates, in the order of the calls. *)
Definition closed_policy_of_run (model_json_schema : ftype -> pydict)
  : list (option json) :=
  map (fun entry =>
         let '(m, _, schema_id) := entry in
         match post_process_schema (model_json_schema m) schema_id with
         | Ok s => Dict.get "additionalProperties" s
         | Raise _ => None
         end)
    schema_table.

(** [schema.get("title", "")] *)
Definition schema_title (schema : pydict) : json :=
  match Dict.get "title" schema with
  | Some t => t
  | None => JStr EmptyString
  end.

(** The values [in] accepts on its right: strings, lists and dicts. *)
Definition is_container (x : json) : bool :=
  match x with
  | JStr _ | JArr _ | JObj _ => true
  | _ => false
  end.

(** Whether post-processing closes a raw schema: it has properties and
    its title contains the text [ResearchProduct]. *)
Definition closes (schema : pydict) : bool :=
  Dict.mem "properties" schema
  && match py_in "ResearchProduct" (schema_title schema) with
     | Ok b => b
     | Raise _ => false
     end.

Definition absent_key {A} (k : string) (schema : list (string * A))
  : list string :=
  if Dict.mem k schema then [] else [k].

(** One call of [main()] in [scripts/generate_schemas.py], after the calls
    before it. *)
Definition generate_step (model_json_schema : ftype -> pydict)
  (json_dump : json -> string) (acc : result filesystem)
  (entry : ftype * path * string) : result filesystem :=
  match acc with
  | Raise e => Raise e
  | Ok fs' =>
      let '(m, p, schema_id) := entry in
      generate_schema ftype model_json_schema json_dump m p schema_id fs'
  end.

(** The calls for a list of entries, in order. *)
Definition generate_entries (model_json_schema : ftype -> pydict)
  (json_dump : json -> string) (entries : list (ftype * path * string))
  (fs : filesystem) : result filesystem :=
  fold_left (generate_step model_json_schema json_dump) entries (Ok fs).

Definition entry_path (entry : ftype * path * string) : path :=
  snd (fst entry).

(** The text [generate_schema] writes for an entry, when post-processing
    returns. *)
Definition entry_document (model_json_schema : ftype -> pydict)
  (json_dump : json -> string) (entry : ftype * path * string)
  : option string :=
  let '(m, _, schema_id) := entry in
  match post_process_schema (model_json_schema m) schema_id with
  | Ok s => Some (json_dump (JObj s) ++ newline)
  | Raise _ => None
  end.

Definition has_dir (d : path) (fs : filesystem) : bool :=
  existsb (path_eqb d) (fs_dirs fs).

(** What [validate] checks for one field of a class. *)
Definition field_verdict (d : pydict) (f : field) : bool :=
  match field_input d (field_name f) (field_alias f) with
  | Some x => validate (field_type f) x
  | None => match f with Field _ _ req _ => negb req end
  end.

(** The keys a field is looked up under. *)
Definition keys_of (f : field) : list string :=
  match field_alias f with
  | Some a => [a; field_name f]
  | None => [field_name f]
  end.

Fixpoint nodupb (l : list string) : bool :=
  match l with
  | [] => true
  | x :: r => negb (str_mem x r) && nodupb r
  end.

(** Every class declared under [src/rap_spec], file by file. *)
Definition package_classes : list ftype :=
  [ common.Unit; common.QuantityValue; common.SoftwareApplication;
    common.ProcessingStep; common.ProcessingProvenance;
    common.ComputeEnvironment; common.CreativeWork; common.DataDownload;
    common.PropertyValue; common.ScholarlyArticle;
    vector_data.Statistics; vector_data.VectorData;
    base.BaseMeasurement;
    timeseries.TimeDimension; timeseries.Dimensions;
    timeseries.SamplingRate; timeseries.Duration; timeseries.Channels;
    timeseries.TimeseriesMeasurement;
    relaxometry_mri.SpatialResolution; relaxometry_mri.FieldStrength;
    relaxometry_mri.AcquisitionParameters;
    relaxometry_mri.RelaxometryMRIMeasurement;
    research_product.DemographicData; research_product.ParticipantReference;
    research_product.ResearchProduct;
    participant.Age; participant.DemographicData; participant.Medication;
    participant.Assessment; participant.ClinicalData;
    participant.ProductsAvailable; participant.SessionDuration;
    participant.Environment; participant.SessionMetadata; participant.Links;
    participant.Consent; participant.Participant;
    collection.AppliedFilters; collection.AvailableFilters;
    collection.Filter; collection.ProductSummary;
    collection.PaginationLinks; collection.Pagination; collection.SortedBy;
    collection.ResearchProductCollection;
    aggregate.AggregateFilters; aggregate.MeanValue;
    aggregate.QuantileValues; aggregate.ConfidenceInterval;
    aggregate.Statistics; aggregate.Histogram; aggregate.KDE;
    aggregate.Distribution; aggregate.AggregateLinks;
    aggregate.AggregateGroup; aggregate.ComparisonGroup;
    aggregate.EffectSize; aggregate.StatisticalTest;
    aggregate.PostHocComparison; aggregate.Comparison;
    aggregate.AggregateMetadata; aggregate.AggregateStatistics;
    api_descriptor.Paper; api_descriptor.API; api_descriptor.Endpoint;
    api_descriptor.ResearchAPIDescriptor ].





Definition PRODUCT_TYPES : list string :=
  ["processed_timeseries"; "processed_scalar"; "processed_image";
   "processed_spatial"; "processed_categorical"; "processed_vector"].

Definition PROCESSING_LEVELS : list string :=
  ["raw"; "preprocessed"; "analysis_ready"; "aggregated"].

(** A class, with no key shared between two of its fields or between the
    alias and the name of one. *)
Definition well_formed_class (cls : ftype) : bool :=
  match cls with
  | TModel _ fs => nodupb (field_keys fs)
  | _ => false
  end.

(** A value with a unit, as SamplingRate and Duration take it. *)
Definition quantity_doc (value : json) : json :=
  JObj [("value", value); ("unit", unit_ms)].

(** A ResearchProductCollection document with its required fields. *)
Definition collection_doc (total_items : json) (members : list json) : json :=
  JObj [("@context", JStr RAP_CONTEXT);
        ("@type", JStr "ResearchProductCollection");
        ("@id", JStr "https://example.org/products");
        ("totalItems", total_items);
        ("member", JArr members)].

Definition product_summary_doc : json :=
  JObj [("@id", JStr "https://example.org/products/1");
        ("identifier", JStr "product-1")].

Definition vector_doc_with_length (values : list json) (length : json)
  : json :=
  JObj [("values", JArr values); ("unit", unit_ms); ("length", length)].

Definition interval_doc (lower upper : Q) : json :=
  JObj [("level", JFloat (95 # 100)); ("lower", JFloat lower);
        ("upper", JFloat upper)].

Definition flagged_test_doc (p_value alpha : Q) (significant : bool) : json :=
  JObj [("method", JStr "t-test"); ("statistic", JFloat 2);
        ("pValue", JFloat p_value); ("alpha", JFloat alpha);
        ("significant", JBool significant)].

Definition PARTICIPATION_STATUSES : list string :=
  ["active"; "completed"; "withdrawn"; "excluded"].

(** A Participant document with a status and, optionally, an exclusion
    reason. *)
Definition participant_status_doc (status : string)
  (exclusion_reason : option string) : json :=
  JObj (participant_doc "sub-01"
        ++ ("status", JStr status)
           :: match exclusion_reason with
              | Some r => [("exclusionReason", JStr r)]
              | None => []
              end)%list.

(** The four entities whose [@context] is the literal URI or an inline
    context. *)
Definition context_entities : list ftype :=
  [ research_product.ResearchProduct; participant.Participant;
    collection.ResearchProductCollection; aggregate.AggregateStatistics ].

Definition provenance_doc (step_order : json) : json :=
  JObj [("wasDerivedFrom", JObj []);
        ("processingSteps",
         JArr [JObj [("stepOrder", step_order); ("name", JStr "filter")]])].

(** A relaxometry measurement with acquisition parameters. *)
Definition relaxometry_doc (flip_angle : json) : json :=
  JObj [("measurementType", JStr "relaxometry_mri");
        ("specificMeasure", JStr "t1_relaxation_time");
        ("acquisitionParameters", JObj [("flipAngle", flip_angle)])].

(** Does the shape of the tree let every entry be written: no parent
    directory blocked by a regular file, no output path a directory? *)
Definition tree_admits (entries : list (ftype * path * string))
  (fs : filesystem) : bool :=
  forallb (fun e => negb (blocked (parent (entry_path e)) (fs_files fs))
                    && negb (is_dir (entry_path e) (fs_dirs fs)))
    entries.

(** No output path of the list is a directory another entry needs. *)
Definition paths_apart (entries : list (ftype * path * string)) : bool :=
  forallb (fun e =>
             forallb (fun e' =>
                        negb (existsb (path_eqb (entry_path e))
                                (ancestors (parent (entry_path e')))))
               entries)
    entries.


(** A class with the annotation of one of its fields replaced. *)
Definition with_field_type (name : string) (t : ftype) (cls : ftype)
  : ftype :=
  TModel (cls_name cls)
    (map (fun f => match f with
                   | Field n a r _ =>
                       if String.eqb n name then Field n a r t else f
                   end) (cls_fields cls)).

(** ResearchProduct with [measurement] annotated with one class instead
    of the union. *)
Definition product_with_measurement (variant : ftype) : ftype :=
  with_field_type "measurement" variant research_product.ResearchProduct.

(** What a measurement object gives for its tag: both variants declare
    [measurement_type] with the alias [measurementType] and a default. *)
Definition measurement_tag (d : pydict) : option json :=
  field_input d "measurement_type" (Some "measurementType").

(** A measurement object with no tag and a sampling rate of -1. *)
Definition untagged_measurement : pydict :=
  [("specificMeasure", JStr "eeg");
   ("samplingRate", quantity_doc (JInt (-1)))].

(** * Properties *)

(** ** Python dicts *)

Lemma get_set_same {A} (k : string) (v : A) d :
  Dict.get k (Dict.set k v d) = Some v.
Proof.
  induction d as [|[k' v'] r IH]; simpl.
  - now rewrite String.eqb_refl.
  - destruct (String.eqb k k') eqn:E; simpl; rewrite E; auto.
Qed.

Lemma get_set_other {A} (k k' : string) (v : A) d :
  k <> k' -> Dict.get k (Dict.set k' v d) = Dict.get k d.
Proof.
  intros Hne. apply String.eqb_neq in Hne.
  induction d as [|[k2 v2] r IH]; simpl.
  - now rewrite Hne.
  - destruct (String.eqb k' k2) eqn:E; simpl.
    + apply String.eqb_eq in E; subst k2. now rewrite Hne.
    + now rewrite IH.
Qed.

Lemma get_pop_same {A} (k : string) (d : list (string * A)) :
  Dict.get k (Dict.pop k d) = None.
Proof.
  induction d as [|[k' v'] r IH]; simpl; auto.
  destruct (String.eqb k k') eqn:E; simpl; auto. now rewrite E.
Qed.

Lemma get_pop_other {A} (k k' : string) (d : list (string * A)) :
  k <> k' -> Dict.get k (Dict.pop k' d) = Dict.get k d.
Proof.
  intros Hne. apply String.eqb_neq in Hne.
  induction d as [|[k2 v2] r IH]; simpl; auto.
  destruct (String.eqb k' k2) eqn:E; simpl.
  - apply String.eqb_eq in E; subst k2. now rewrite Hne.
  - now rewrite IH.
Qed.

Lemma set_present {A} (k : string) (v : A) d :
  Dict.get k d = Some v -> Dict.set k v d = d.
Proof.
  induction d as [|[k' v'] r IH]; simpl; [discriminate|].
  destruct (String.eqb k k') eqn:E; intros H.
  - now inversion H.
  - now rewrite IH.
Qed.

Lemma pop_absent {A} (k : string) (d : list (string * A)) :
  Dict.get k d = None -> Dict.pop k d = d.
Proof.
  induction d as [|[k' v'] r IH]; simpl; auto.
  destruct (String.eqb k k') eqn:E; intros H; [discriminate|].
  now rewrite IH.
Qed.

Lemma pop_set_absent {A} (k : string) (v : A) d :
  Dict.get k d = None -> Dict.pop k (Dict.set k v d) = d.
Proof.
  induction d as [|[k' v'] r IH]; simpl.
  - now rewrite String.eqb_refl.
  - destruct (String.eqb k k') eqn:E; intros H; [discriminate|].
    simpl. rewrite E. now rewrite IH.
Qed.

Lemma mem_get {A} (k : string) (d : list (string * A)) :
  Dict.mem k d = true <-> exists v, Dict.get k d = Some v.
Proof.
  unfold Dict.mem. destruct (Dict.get k d); split; intros H; eauto.
  - discriminate.
  - destruct H; discriminate.
Qed.

(** ** The schema projector *)

Lemma schema_base_normalized raw id : normalized (schema_base raw id) id.
Proof.
  unfold normalized, schema_base. repeat split.
  - rewrite get_pop_other by discriminate.
    rewrite get_set_other by discriminate. apply get_set_same.
  - rewrite get_pop_other by discriminate. apply get_set_same.
  - apply get_pop_same.
Qed.

Lemma schema_base_fixed b id : normalized b id -> schema_base b id = b.
Proof.
  intros (Hs & Hi & Ha). unfold schema_base.
  rewrite (set_present _ _ _ Hs), (set_present _ _ _ Hi).
  now apply pop_absent.
Qed.

Lemma schema_base_closed b id :
  normalized b id ->
  schema_base (Dict.set "additionalProperties" (JBool false) b) id = b.
Proof.
  intros (Hs & Hi & Ha). unfold schema_base.
  rewrite (set_present "$schema").
  2:{ rewrite get_set_other by discriminate. exact Hs. }
  rewrite (set_present "$id").
  2:{ rewrite get_set_other by discriminate. exact Hi. }
  now apply pop_set_absent.
Qed.

Lemma schema_base_keeps (k : string) raw id :
  k <> "additionalProperties" -> k <> "$id" -> k <> "$schema" ->
  Dict.get k (schema_base raw id) = Dict.get k raw.
Proof.
  intros H1 H2 H3. unfold schema_base.
  rewrite get_pop_other by assumption.
  rewrite get_set_other by assumption.
  now rewrite get_set_other by assumption.
Qed.

(** With a string for a title, post-processing returns, and closes the
    schema exactly when the schema has properties and the title contains
    the text [ResearchProduct]. *)
Lemma post_process_schema_titled raw id t :
  Dict.get "title" raw = Some (JStr t) ->
  post_process_schema raw id =
  Ok (if Dict.mem "properties" raw && str_contains "ResearchProduct" t
      then Dict.set "additionalProperties" (JBool false) (schema_base raw id)
      else schema_base raw id).
Proof.
  intros Ht. unfold post_process_schema. fold (schema_base raw id).
  unfold Dict.mem.
  rewrite !schema_base_keeps by discriminate. rewrite Ht.
  destruct (Dict.get "properties" raw); simpl; [|reflexivity].
  now destruct (str_contains "ResearchProduct" t).
Qed.

Lemma post_process_schema_idempotent raw id s :
  post_process_schema raw id = Ok s -> post_process_schema s id = Ok s.
Proof.
  pose proof (schema_base_normalized raw id) as Hn.
  unfold post_process_schema. fold (schema_base raw id).
  set (b := schema_base raw id) in *.
  destruct (Dict.mem "properties" b) eqn:Hp.
  - destruct (py_in "ResearchProduct"
                (match Dict.get "title" b with
                 | Some t => t
                 | None => JStr EmptyString
                 end)) as [[|]|e] eqn:Hin; intros H; inversion H; subst s.
    + fold (schema_base
              (Dict.set "additionalProperties" (JBool false) b) id).
      rewrite (schema_base_closed b id Hn), Hp, Hin. reflexivity.
    + fold (schema_base b id).
      rewrite (schema_base_fixed b id Hn), Hp, Hin. reflexivity.
  - intros H; inversion H; subst s.
    fold (schema_base b id).
    rewrite (schema_base_fixed b id Hn), Hp. reflexivity.
Qed.

Lemma post_process_schema_ids raw id s :
  post_process_schema raw id = Ok s ->
  Dict.get "$id" s = Some (JStr id)
  /\ Dict.get "$schema" s = Some (JStr DRAFT_2020_12).
Proof.
  pose proof (schema_base_normalized raw id) as (Hs & Hi & _).
  unfold post_process_schema. fold (schema_base raw id).
  destruct (Dict.mem "properties" (schema_base raw id)).
  - destruct (py_in _ _) as [[|]|e]; intros H; inversion H; subst s.
    + rewrite !get_set_other by discriminate. auto.
    + auto.
  - intros H; inversion H; subst s. auto.
Qed.

(** *** The file tree *)

Lemma path_eqb_refl p : path_eqb p p = true.
Proof. unfold path_eqb. destruct (list_eq_dec string_dec p p); congruence. Qed.

Lemma read_write_same p c fl : read_file p (write_file p c fl) = Some c.
Proof.
  induction fl as [|[p' c'] r IH]; simpl.
  - now rewrite path_eqb_refl.
  - destruct (path_eqb p p') eqn:E; simpl; rewrite E; auto.
Qed.

Lemma write_write_same p c fl :
  write_file p c (write_file p c fl) = write_file p c fl.
Proof.
  induction fl as [|[p' c'] r IH]; simpl.
  - now rewrite path_eqb_refl.
  - destruct (path_eqb p p') eqn:E; simpl; rewrite E; auto.
    now rewrite IH.
Qed.

Lemma add_dir_keeps a b ds :
  existsb (path_eqb a) ds = true ->
  existsb (path_eqb a) (add_dir b ds) = true.
Proof.
  intros H. unfold add_dir. destruct (existsb (path_eqb b) ds); auto.
  rewrite existsb_app, H. reflexivity.
Qed.

Lemma add_dir_adds a ds : existsb (path_eqb a) (add_dir a ds) = true.
Proof.
  unfold add_dir. destruct (existsb (path_eqb a) ds) eqn:E; auto.
  rewrite existsb_app. simpl. rewrite path_eqb_refl.
  now rewrite orb_true_r.
Qed.

Lemma add_all_keeps a l : forall ds,
  existsb (path_eqb a) ds = true ->
  existsb (path_eqb a) (fold_left (fun acc x => add_dir x acc) l ds) = true.
Proof.
  induction l as [|b l IH]; simpl; intros ds H; auto.
  apply IH. now apply add_dir_keeps.
Qed.

Lemma add_all_adds a l : forall ds,
  In a l ->
  existsb (path_eqb a) (fold_left (fun acc x => add_dir x acc) l ds) = true.
Proof.
  induction l as [|b l IH]; simpl; intros ds H; [tauto|].
  destruct H as [->|H].
  - apply add_all_keeps, add_dir_adds.
  - now apply IH.
Qed.

Lemma add_all_present l : forall ds,
  (forall a, In a l -> existsb (path_eqb a) ds = true) ->
  fold_left (fun acc x => add_dir x acc) l ds = ds.
Proof.
  induction l as [|b l IH]; simpl; intros ds H; auto.
  unfold add_dir at 2. rewrite (H b) by auto. apply IH. auto.
Qed.

(** Creating the directories again changes nothing ([exist_ok=True]). *)
Lemma mkdir_p_idempotent p ds : mkdir_p p (mkdir_p p ds) = mkdir_p p ds.
Proof.
  unfold mkdir_p. apply add_all_present. intros a Ha.
  now apply add_all_adds.
Qed.

Lemma path_eqb_eq p q : path_eqb p q = true <-> p = q.
Proof.
  unfold path_eqb. destruct (list_eq_dec string_dec p q); split;
    congruence.
Qed.

Lemma path_eqb_neq p q : path_eqb p q = false <-> p <> q.
Proof.
  unfold path_eqb. destruct (list_eq_dec string_dec p q); split;
    congruence.
Qed.

Lemma read_write_other p q c fl :
  q <> p -> read_file q (write_file p c fl) = read_file q fl.
Proof.
  intros Hne. induction fl as [|[p' c'] r IH]; simpl.
  - apply path_eqb_neq in Hne. now rewrite Hne.
  - destruct (path_eqb p p') eqn:E; simpl.
    + apply path_eqb_eq in E. subst p'.
      apply path_eqb_neq in Hne. now rewrite Hne.
    + now rewrite IH.
Qed.

Lemma write_present p c fl :
  read_file p fl = Some c -> write_file p c fl = fl.
Proof.
  induction fl as [|[p' c'] r IH]; simpl; [discriminate|].
  destruct (path_eqb p p') eqn:E; intros H.
  - now inversion H.
  - now rewrite IH.
Qed.

Lemma existsb_agree {A} (f g : A -> bool) l :
  (forall x, In x l -> f x = g x) -> existsb f l = existsb g l.
Proof.
  induction l as [|x l IH]; simpl; intros H; auto.
  rewrite (H x) by auto. f_equal. apply IH. auto.
Qed.

Lemma ancestors_shorter q : forall a,
  In a (ancestors q) -> (List.length a <= List.length q)%nat.
Proof.
  induction q as [|c r IH]; simpl; intros a Ha; [contradiction|].
  destruct Ha as [<-|Ha]; [simpl; lia|].
  apply in_map_iff in Ha. destruct Ha as (a' & <- & Ha').
  simpl. apply IH in Ha'. lia.
Qed.

Lemma parent_shorter (p : path) :
  p <> [] -> (List.length (parent p) < List.length p)%nat.
Proof.
  intros H. unfold parent.
  rewrite (app_removelast_last EmptyString H) at 2.
  rewrite length_app. simpl. lia.
Qed.

(** A path is not among the ancestors of its own parent directory. *)
Lemma not_own_ancestor (p : path) : ~ In p (ancestors (parent p)).
Proof.
  intros Hin. destruct p as [|c r]; [exact Hin|].
  apply ancestors_shorter in Hin.
  pose proof (parent_shorter (c :: r) ltac:(discriminate)). lia.
Qed.

Lemma add_all_other p l : forall ds,
  ~ In p l ->
  is_dir p (fold_left (fun acc x => add_dir x acc) l ds) = is_dir p ds.
Proof.
  unfold is_dir. induction l as [|b l IH]; simpl; intros ds H; auto.
  rewrite IH by tauto. unfold add_dir.
  destruct (existsb (path_eqb b) ds); auto.
  rewrite existsb_app. simpl.
  assert (E : path_eqb p b = false) by (apply path_eqb_neq; intros ->; tauto).
  rewrite E. now rewrite !orb_false_r.
Qed.

Lemma is_file_write_other p q c fl :
  q <> p -> is_file q (write_file p c fl) = is_file q fl.
Proof. intros H. unfold is_file. now rewrite read_write_other. Qed.

Lemma is_file_write_keeps p q c fl :
  is_file q fl = true -> is_file q (write_file p c fl) = true.
Proof.
  intros H. destruct (list_eq_dec string_dec q p) as [->|Hne].
  - unfold is_file. now rewrite read_write_same.
  - now rewrite is_file_write_other.
Qed.

Lemma blocked_write_other q p c fl :
  ~ In p (ancestors q) -> blocked q (write_file p c fl) = blocked q fl.
Proof.
  intros H. unfold blocked. apply existsb_agree. intros a Ha.
  apply is_file_write_other. intros ->. contradiction.
Qed.

Lemma blocked_write_keeps q p c fl :
  blocked q fl = true -> blocked q (write_file p c fl) = true.
Proof.
  unfold blocked. rewrite !existsb_exists. intros (a & Ha & Hf).
  exists a. split; auto. now apply is_file_write_keeps.
Qed.

(** *** What [generate_schema] returns *)

Lemma generate_schema_ok (C : Type) (mjs : C -> pydict) dump m p id fs s :
  post_process_schema (mjs m) id = Ok s ->
  blocked (parent p) (fs_files fs) = false ->
  is_dir p (fs_dirs fs) = false ->
  generate_schema C mjs dump m p id fs
  = Ok (MkFs (mkdir_p (parent p) (fs_dirs fs))
          (write_file p (dump (JObj s) ++ newline) (fs_files fs))).
Proof.
  intros Hpp Hb Hd. unfold generate_schema. rewrite Hpp, Hb.
  unfold mkdir_p. rewrite add_all_other by apply not_own_ancestor.
  now rewrite Hd.
Qed.

Lemma generate_schema_inv (C : Type) (mjs : C -> pydict) dump m p id fs fs1 :
  generate_schema C mjs dump m p id fs = Ok fs1 ->
  exists s,
    post_process_schema (mjs m) id = Ok s
    /\ blocked (parent p) (fs_files fs) = false
    /\ is_dir p (fs_dirs fs) = false
    /\ fs1 = MkFs (mkdir_p (parent p) (fs_dirs fs))
               (write_file p (dump (JObj s) ++ newline) (fs_files fs)).
Proof.
  unfold generate_schema.
  destruct (post_process_schema (mjs m) id) as [s|e]; [|discriminate].
  destruct (blocked (parent p) (fs_files fs)); [discriminate|].
  unfold mkdir_p. rewrite add_all_other by apply not_own_ancestor.
  destruct (is_dir p (fs_dirs fs)); [discriminate|].
  intros H. inversion H. exists s. auto.
Qed.

Lemma generate_schema_os_error (C : Type) (mjs : C -> pydict) dump m p id
  fs s :
  post_process_schema (mjs m) id = Ok s ->
  blocked (parent p) (fs_files fs) = true \/ is_dir p (fs_dirs fs) = true ->
  generate_schema C mjs dump m p id fs = Raise OSError.
Proof.
  intros Hpp H. unfold generate_schema. rewrite Hpp.
  destruct (blocked (parent p) (fs_files fs)); [reflexivity|].
  unfold mkdir_p. rewrite add_all_other by apply not_own_ancestor.
  destruct H as [H|H]; [discriminate|]. now rewrite H.
Qed.

(** The tree a run returns lets the same call run again. *)
Lemma generate_schema_again dirs p c fl :
  blocked (parent p) fl = false ->
  is_dir p dirs = false ->
  blocked (parent p) (write_file p c fl) = false
  /\ is_dir p (mkdir_p (parent p) dirs) = false.
Proof.
  intros Hb Hd. split.
  - now rewrite blocked_write_other by apply not_own_ancestor.
  - unfold mkdir_p. now rewrite add_all_other by apply not_own_ancestor.
Qed.

(** C1 (the code departs from the claim).  The claim: of the generated
    documents only the one for ResearchProduct carries
    [additionalProperties: false] at its top level.  The code tests whether
    the title of the schema contains the text [ResearchProduct]; the title
    of a raw schema is the class name, so the test also succeeds for
    ResearchProductCollection.  For every raw projection that titles each
    schema with its class name and gives it properties, the run closes two
    documents: the fifth (ResearchProduct) and the seventh
    (ResearchProductCollection). *)
Theorem C1_collection_schema_closed_too :
  forall model_json_schema : ftype -> pydict,
    (forall m, Dict.get "title" (model_json_schema m)
               = Some (JStr (cls_name m))) ->
    (forall m, Dict.mem "properties" (model_json_schema m) = true) ->
    closed_policy_of_run model_json_schema =
    [None; None; None; None; Some (JBool false); None;
     Some (JBool false); None; None].
Proof.
  intros mjs Ht Hp.
  assert (step : forall m id,
             match post_process_schema (mjs m) id with
             | Ok s => Dict.get "additionalProperties" s
             | Raise _ => None
             end
             = if str_contains "ResearchProduct" (cls_name m)
               then Some (JBool false) else None).
  { intros m id. rewrite (post_process_schema_titled _ _ _ (Ht m)), Hp.
    simpl andb. destruct (str_contains "ResearchProduct" (cls_name m)).
    - apply get_set_same.
    - apply (proj2 (proj2 (schema_base_normalized (mjs m) id))). }
  unfold closed_policy_of_run, schema_table.
  cbn [map]. rewrite !step. reflexivity.
Qed.

Lemma C1_collection_schema_closed_too_witness :
  closed_policy_of_run schema_outline =
  [None; None; None; None; Some (JBool false); None;
   Some (JBool false); None; None].
Proof.
  apply (C1_collection_schema_closed_too schema_outline).
  - intros m. reflexivity.
  - intros m. reflexivity.
Defined.

(** C9.  Schema generation is deterministic and idempotent.  For a class
    whose raw schema has a string for a title, post-processing returns a
    schema [s] whose [$id] is the one supplied and whose [$schema] is the
    draft 2020-12 URI, and post-processing [s] again returns [s]
    unchanged, key order included.  On a file tree that lets the
    directories and the file be written, [generate_schema] returns, the
    output path then holds the encoding of [s] followed by a newline, and
    a second run on the tree the first returned leaves that tree as it
    is; on a tree where the parent directory or an ancestor of it is a
    regular file, or the output path is a directory, it raises [OSError].
    Every run that returns, from whatever tree, leaves the same document;
    so does a run whose raw schema is the dict [s] an earlier run has
    already post-processed in place. *)
Theorem C9_schema_generation_idempotent :
  forall (model_class : Type) (model_json_schema : model_class -> pydict)
         (json_dump : json -> string) (m : model_class) (output_path : path)
         (schema_id : string) (fs : filesystem) (title : string),
    Dict.get "title" (model_json_schema m) = Some (JStr title) ->
    exists s : pydict,
      post_process_schema (model_json_schema m) schema_id = Ok s
      /\ Dict.get "$id" s = Some (JStr schema_id)
      /\ Dict.get "$schema" s = Some (JStr DRAFT_2020_12)
      /\ post_process_schema s schema_id = Ok s
      /\ (blocked (parent output_path) (fs_files fs) = false ->
          is_dir output_path (fs_dirs fs) = false ->
          exists fs1 : filesystem,
            generate_schema model_class model_json_schema json_dump
              m output_path schema_id fs = Ok fs1
            /\ read_file output_path (fs_files fs1)
               = Some (json_dump (JObj s) ++ newline)
            /\ generate_schema model_class model_json_schema json_dump
                 m output_path schema_id fs1 = Ok fs1)
      /\ (blocked (parent output_path) (fs_files fs) = true
          \/ is_dir output_path (fs_dirs fs) = true ->
          generate_schema model_class model_json_schema json_dump
            m output_path schema_id fs = Raise OSError)
      /\ (forall fs' fs1' : filesystem,
             generate_schema model_class model_json_schema json_dump
               m output_path schema_id fs' = Ok fs1' ->
             read_file output_path (fs_files fs1')
             = Some (json_dump (JObj s) ++ newline))
      /\ (forall (shared : model_class -> pydict) (fs' fs1' : filesystem),
             shared m = s ->
             generate_schema model_class shared json_dump
               m output_path schema_id fs' = Ok fs1' ->
             read_file output_path (fs_files fs1')
             = Some (json_dump (JObj s) ++ newline)).
Proof.
  intros C mjs dump m p id fs t Ht.
  pose proof (post_process_schema_titled _ id _ Ht) as Hpp.
  set (s := if Dict.mem "properties" (mjs m)
                 && str_contains "ResearchProduct" t
            then Dict.set "additionalProperties" (JBool false)
                   (schema_base (mjs m) id)
            else schema_base (mjs m) id) in *.
  exists s.
  destruct (post_process_schema_ids _ _ _ Hpp) as [Hid Hsch].
  pose proof (post_process_schema_idempotent _ _ _ Hpp) as Hagain.
  split; [exact Hpp|]. split; [exact Hid|]. split; [exact Hsch|].
  split; [exact Hagain|]. split; [|split; [|split]].
  - intros Hb Hd.
    exists (MkFs (mkdir_p (parent p) (fs_dirs fs))
              (write_file p (dump (JObj s) ++ newline) (fs_files fs))).
    destruct (generate_schema_again (fs_dirs fs) p
                (dump (JObj s) ++ newline) (fs_files fs) Hb Hd)
      as [Hb' Hd'].
    split; [now apply generate_schema_ok|].
    split; [apply read_write_same|].
    rewrite (generate_schema_ok C mjs dump m p id
               (MkFs (mkdir_p (parent p) (fs_dirs fs))
                  (write_file p (dump (JObj s) ++ newline) (fs_files fs)))
               s Hpp Hb' Hd').
    simpl. now rewrite mkdir_p_idempotent, write_write_same.
  - intros H. now apply generate_schema_os_error with (s := s).
  - intros fs' fs1' H. apply generate_schema_inv in H.
    destruct H as (s' & Hs' & _ & _ & ->).
    rewrite Hpp in Hs'. inversion Hs'; subst s'. apply read_write_same.
  - intros shared fs' fs1' Hshared H. apply generate_schema_inv in H.
    destruct H as (s' & Hs' & _ & _ & ->).
    rewrite Hshared, Hagain in Hs'. inversion Hs'; subst s'.
    apply read_write_same.
Qed.

Lemma C9_schema_generation_idempotent_witness :
  Dict.get "title" (schema_outline research_product.ResearchProduct)
  = Some (JStr "ResearchProduct")
  /\ blocked (parent ["schemas"; "v1"; "research-product.json"])
       (fs_files empty_fs) = false
  /\ is_dir ["schemas"; "v1"; "research-product.json"] (fs_dirs empty_fs)
     = false
  /\ (exists fs1 : filesystem,
        generate_schema ftype schema_outline outline_dump
          research_product.ResearchProduct
          ["schemas"; "v1"; "research-product.json"]
          (SCHEMAS ++ "research-product.json") empty_fs = Ok fs1
        /\ generate_schema ftype schema_outline outline_dump
             research_product.ResearchProduct
             ["schemas"; "v1"; "research-product.json"]
             (SCHEMAS ++ "research-product.json") fs1 = Ok fs1)
  /\ generate_schema ftype schema_outline outline_dump
       research_product.ResearchProduct
       ["schemas"; "v1"; "research-product.json"]
       (SCHEMAS ++ "research-product.json")
       (MkFs [] [(["schemas"], "a regular file")]) = Raise OSError.
Proof.
  split; [reflexivity|]. split; [reflexivity|]. split; [reflexivity|].
  split.
  - destruct (C9_schema_generation_idempotent ftype schema_outline
                outline_dump research_product.ResearchProduct
                ["schemas"; "v1"; "research-product.json"]
                (SCHEMAS ++ "research-product.json") empty_fs
                "ResearchProduct" eq_refl)
      as (s & _ & _ & _ & _ & Hrun & _).
    destruct (Hrun eq_refl eq_refl) as (fs1 & H1 & _ & H2).
    exists fs1. split; assumption.
  - destruct (C9_schema_generation_idempotent ftype schema_outline
                outline_dump research_product.ResearchProduct
                ["schemas"; "v1"; "research-product.json"]
                (SCHEMAS ++ "research-product.json")
                (MkFs [] [(["schemas"], "a regular file")])
                "ResearchProduct" eq_refl)
      as (s & _ & _ & _ & _ & _ & Hfail & _).
    apply Hfail. left. reflexivity.
Defined.

(** ** Validation of a class *)

Lemma validate_model n fs d :
  validate (TModel n fs) (JObj d) = fields_ok d fs.
Proof.
  induction fs as [|[name alias req t] r IH]; simpl; [reflexivity|].
  f_equal. exact IH.
Qed.

Lemma str_mem_false k l : str_mem k l = false <-> ~ In k l.
Proof.
  unfold str_mem. split.
  - intros H Hin. assert (existsb (String.eqb k) l = true); [|congruence].
    apply existsb_exists. exists k. split; auto. apply String.eqb_refl.
  - intros H. destruct (existsb (String.eqb k) l) eqn:E; auto.
    apply existsb_exists in E. destruct E as (x & Hx & Hk).
    apply String.eqb_eq in Hk. subst x. contradiction.
Qed.

(** The fields of a class see an input dict only through [field_input]. *)
Lemma fields_ok_ext d1 d2 fs :
  (forall f, In f fs ->
             field_input d1 (field_name f) (field_alias f)
             = field_input d2 (field_name f) (field_alias f)) ->
  fields_ok d1 fs = fields_ok d2 fs.
Proof.
  induction fs as [|[name alias req t] r IH]; simpl; intros H; auto.
  pose proof (H (Field name alias req t) (or_introl eq_refl)) as E.
  simpl in E. rewrite E. f_equal. apply IH.
  intros f Hf. apply H. auto.
Qed.

Lemma fields_ok_in d fs name alias req t :
  fields_ok d fs = true ->
  In (Field name alias req t) fs ->
  match field_input d name alias with
  | Some x => validate t x
  | None => negb req
  end = true.
Proof.
  induction fs as [|[n a r t'] fs IH]; simpl; intros H Hin; [tauto|].
  apply andb_prop in H. destruct H as [H1 H2].
  destruct Hin as [E|Hin]; [inversion E; subst; exact H1|auto].
Qed.

Lemma get_app_other {A} (k k' : string) (v : A) d1 d2 :
  k <> k' -> Dict.get k (d1 ++ (k', v) :: d2)%list = Dict.get k (d1 ++ d2)%list.
Proof.
  intros Hne. apply String.eqb_neq in Hne.
  induction d1 as [|[k1 v1] r IH]; simpl.
  - now rewrite Hne.
  - now rewrite IH.
Qed.

Lemma get_app_absent {A} (k : string) (d1 d2 : list (string * A)) :
  Dict.get k d1 = None -> Dict.get k (d1 ++ d2)%list = Dict.get k d2.
Proof.
  induction d1 as [|[k1 v1] r IH]; simpl; auto.
  destruct (String.eqb k k1); [discriminate|auto].
Qed.

Lemma field_input_unknown fs k v d1 d2 :
  ~ In k (field_keys fs) ->
  forall f, In f fs ->
    field_input (d1 ++ (k, v) :: d2)%list (field_name f) (field_alias f)
    = field_input (d1 ++ d2)%list (field_name f) (field_alias f).
Proof.
  induction fs as [|[n a r t] fs IH]; simpl; intros Hk f Hf; [tauto|].
  destruct Hf as [<-|Hf].
  - simpl. unfold field_input. destruct a as [a|]; simpl in Hk.
    + rewrite !(get_app_other _ k) by (intros ->; tauto). reflexivity.
    + rewrite !(get_app_other _ k) by (intros ->; tauto). reflexivity.
  - apply IH; auto. destruct a; simpl in Hk; tauto.
Qed.

(** A key that names no field of the class has no effect on the verdict,
    wherever it stands in the dict. *)
Lemma unknown_key_ignored n fs k v d1 d2 :
  str_mem k (field_keys fs) = false ->
  validate (TModel n fs) (JObj (d1 ++ (k, v) :: d2)%list)
  = validate (TModel n fs) (JObj (d1 ++ d2)%list).
Proof.
  intros Hk. apply str_mem_false in Hk. rewrite !validate_model.
  apply fields_ok_ext. now apply field_input_unknown.
Qed.

(** C2 (counterexample).  The minimal ResearchProduct document validates,
    the key [unknownField] names none of the fields of the class, and the
    document with that key added still validates as a ResearchProduct. *)
Lemma C2_extra_field_accepted :
  model_validate research_product.ResearchProduct (JObj minimal_product)
  = true
  /\ known_key research_product.ResearchProduct "unknownField" = false
  /\ model_validate research_product.ResearchProduct
       (JObj (minimal_product ++ [("unknownField", JStr "x")])%list) = true.
Proof. repeat split; vm_compute; reflexivity. Qed.

(** C2 (amended).  No class of the package forbids extra fields: a
    top-level key that names no field of ResearchProduct does not change
    the verdict on a document validated as a ResearchProduct, and the same
    holds for Participant.  In particular a document that meets the field
    requirements of the class is accepted with the extra field, for both
    classes. *)
Theorem C2_unknown_top_level_field_ignored :
  forall (cls : ftype) (d1 d2 : pydict) (k : string) (v : json),
    cls = research_product.ResearchProduct
    \/ cls = participant.Participant ->
    known_key cls k = false ->
    model_validate cls (JObj (d1 ++ (k, v) :: d2)%list)
    = model_validate cls (JObj (d1 ++ d2)%list).
Proof.
  intros cls d1 d2 k v Hcls Hk. unfold model_validate.
  destruct Hcls as [-> | ->]; now apply unknown_key_ignored.
Qed.

Lemma C2_unknown_top_level_field_ignored_witness :
  (research_product.ResearchProduct = research_product.ResearchProduct
   \/ research_product.ResearchProduct = participant.Participant)
  /\ known_key research_product.ResearchProduct "unknownField" = false
  /\ model_validate research_product.ResearchProduct
       (JObj (minimal_product ++ ("unknownField", JStr "x") :: [])%list)
     = model_validate research_product.ResearchProduct
         (JObj (minimal_product ++ [])%list).
Proof.
  split; [left; reflexivity|]. split; [reflexivity|].
  apply (C2_unknown_top_level_field_ignored
           research_product.ResearchProduct minimal_product []
           "unknownField" (JStr "x")).
  - left; reflexivity.
  - reflexivity.
Defined.

(** ** Lists with a minimum length *)

(** C3 (counterexample).  An AggregateStatistics document whose
    [aggregates] list is empty validates: the field is declared
    [List[AggregateGroup] = Field(...)] with no [min_length]. *)
Lemma C3_empty_aggregates_accepted :
  model_validate aggregate.AggregateStatistics (aggregate_doc []) = true.
Proof. vm_compute. reflexivity. Qed.

(** C3 (amended).  A list field declared with [min_length] enforces it:
    a VectorData document is accepted exactly when every element of
    [values] is a valid float and there is at least one, so [values = []]
    is rejected and [values = [1.0]] (with the required unit) is accepted;
    [Statistics.range], declared with [min_length=2] and [max_length=2],
    takes exactly two floats.  [AggregateStatistics.aggregates] is required
    but declares no minimum: the document is accepted exactly when each
    group is valid, and with an empty list in particular. *)
Theorem C3_declared_min_length_enforced :
  (forall values,
      model_validate vector_data.VectorData (vector_doc values)
      = forallb (validate Float) values && (1 <=? List.length values)%nat)
  /\ model_validate vector_data.VectorData (vector_doc []) = false
  /\ model_validate vector_data.VectorData (vector_doc [JFloat 1]) = true
  /\ (forall range,
         model_validate aggregate.Statistics (JObj [("range", JArr range)])
         = forallb (validate Float) range && (List.length range =? 2)%nat)
  /\ (forall groups,
         model_validate aggregate.AggregateStatistics (aggregate_doc groups)
         = forallb (validate aggregate.AggregateGroup) groups)
  /\ model_validate aggregate.AggregateStatistics (aggregate_doc []) = true.
Proof.
  repeat split.
  - intros values. unfold model_validate, vector_doc. cbn.
    rewrite andb_true_r. f_equal. unfold length_ok.
    now destruct values.
  - intros range. unfold model_validate. cbn.
    rewrite andb_true_r. f_equal. unfold length_ok.
    destruct range as [|a [|b [|c r]]]; reflexivity.
  - intros groups.
    unfold model_validate, aggregate_doc, aggregate.AggregateStatistics.
    cbn -[aggregate.AggregateGroup].
    now destruct (forallb (validate aggregate.AggregateGroup) groups).
Qed.

(** ** Lax mode *)


(** ** Aliases *)

Lemma get_snoc_other {A} (k k' : string) (v : A) d :
  k <> k' -> Dict.get k (d ++ [(k', v)])%list = Dict.get k d.
Proof.
  intros Hne. rewrite get_app_other by assumption. now rewrite app_nil_r.
Qed.

Lemma get_snoc_absent {A} (k : string) (v : A) d :
  Dict.get k d = None -> Dict.get k (d ++ [(k, v)])%list = Some v.
Proof.
  intros H. rewrite get_app_absent by assumption. simpl.
  now rewrite String.eqb_refl.
Qed.

Lemma mem_false_get {A} (k : string) (d : list (string * A)) :
  Dict.mem k d = false -> Dict.get k d = None.
Proof. unfold Dict.mem. now destruct (Dict.get k d). Qed.

(** A field declared with [alias="specificMeasure"] reads the same value
    from a dict that gives it under its alias and from one that gives it
    under its own name; every other field reads the same from both. *)
Lemma specific_measure_either_key fs d v :
  Dict.get "specificMeasure" d = None ->
  Dict.get "specific_measure" d = None ->
  Forall (fun f =>
            (field_name f = "specific_measure"
             /\ field_alias f = Some "specificMeasure")
            \/ (field_name f <> "specific_measure"
                /\ field_name f <> "specificMeasure"
                /\ field_alias f <> Some "specific_measure"
                /\ field_alias f <> Some "specificMeasure")) fs ->
  fields_ok (d ++ [("specific_measure", v)])%list fs
  = fields_ok (d ++ [("specificMeasure", v)])%list fs.
Proof.
  intros Ha Hn Hfs. apply fields_ok_ext. intros f Hf.
  rewrite Forall_forall in Hfs. specialize (Hfs f Hf).
  destruct f as [name alias req t]. simpl in *. unfold field_input.
  destruct Hfs as [[-> ->] | (H1 & H2 & H3 & H4)].
  - rewrite (get_snoc_other "specificMeasure" "specific_measure")
      by discriminate.
    rewrite Ha. now rewrite !get_snoc_absent.
  - destruct alias as [a|].
    + rewrite !(get_snoc_other a) by congruence.
      now rewrite !(get_snoc_other name) by congruence.
    + now rewrite !(get_snoc_other name) by congruence.
Qed.

Ltac field_by_field :=
  repeat (apply Forall_cons;
          [ simpl;
            first [ left; split; reflexivity
                  | right; repeat split; discriminate ] | ]);
  apply Forall_nil.

(** C5 (counterexample).  A timeseries measurement keyed by the internal
    name [specific_measure] validates, alone and inside a ResearchProduct
    document. *)
Lemma C5_internal_name_accepted :
  model_validate timeseries.TimeseriesMeasurement
    (JObj [("measurementType", JStr "timeseries");
           ("specific_measure", JStr "eeg")]) = true
  /\ model_validate research_product.ResearchProduct
       (JObj (product_doc (participant_ref "sub-01")
                (JObj [("measurementType", JStr "timeseries");
                       ("specific_measure", JStr "eeg")]))) = true.
Proof. split; vm_compute; reflexivity. Qed.

(** C5 (amended).  Every class sets [populate_by_name=True], so a field
    with a wire alias is accepted under the alias and under its internal
    name alike: for each of the three measurement classes, a document
    keyed by [specific_measure] gets the verdict of the otherwise identical
    document keyed by [specificMeasure]. *)
Theorem C5_alias_and_name_both_accepted :
  forall (cls : ftype) (d : pydict) (v : json),
    cls = base.BaseMeasurement
    \/ cls = timeseries.TimeseriesMeasurement
    \/ cls = relaxometry_mri.RelaxometryMRIMeasurement ->
    Dict.mem "specificMeasure" d = false ->
    Dict.mem "specific_measure" d = false ->
    model_validate cls (JObj (d ++ [("specific_measure", v)])%list)
    = model_validate cls (JObj (d ++ [("specificMeasure", v)])%list).
Proof.
  intros cls d v Hcls Ha Hn.
  apply mem_false_get in Ha. apply mem_false_get in Hn.
  unfold model_validate.
  destruct Hcls as [-> | [-> | ->]].
  - unfold base.BaseMeasurement. rewrite !validate_model.
    apply specific_measure_either_key; auto. field_by_field.
  - unfold timeseries.TimeseriesMeasurement, subclass.
    rewrite !validate_model.
    apply specific_measure_either_key; auto. field_by_field.
  - unfold relaxometry_mri.RelaxometryMRIMeasurement, subclass.
    rewrite !validate_model.
    apply specific_measure_either_key; auto. field_by_field.
Qed.

Lemma C5_alias_and_name_both_accepted_witness :
  (timeseries.TimeseriesMeasurement = base.BaseMeasurement
   \/ timeseries.TimeseriesMeasurement = timeseries.TimeseriesMeasurement
   \/ timeseries.TimeseriesMeasurement
      = relaxometry_mri.RelaxometryMRIMeasurement)
  /\ Dict.mem "specificMeasure" [("measurementType", JStr "timeseries")]
     = false
  /\ Dict.mem "specific_measure" [("measurementType", JStr "timeseries")]
     = false
  /\ model_validate timeseries.TimeseriesMeasurement
       (JObj ([("measurementType", JStr "timeseries")]
              ++ [("specific_measure", JStr "eeg")])%list)
     = model_validate timeseries.TimeseriesMeasurement
         (JObj ([("measurementType", JStr "timeseries")]
                ++ [("specificMeasure", JStr "eeg")])%list).
Proof.
  split; [right; left; reflexivity|]. split; [reflexivity|].
  split; [reflexivity|].
  apply (C5_alias_and_name_both_accepted
           timeseries.TimeseriesMeasurement
           [("measurementType", JStr "timeseries")] (JStr "eeg")).
  - right; left; reflexivity.
  - reflexivity.
  - reflexivity.
Defined.

(** ** The measurement union *)

Lemma validate_union2 a b v :
  validate (TUnion [a; b]) v = validate a v || validate b v.
Proof. simpl. now rewrite orb_false_r. Qed.

(** A class with a literal tag rejects a dict that gives another value
    under the alias of the tag. *)
Lemma literal_tag_mismatch n fs name alias req values d v :
  In (Field name (Some alias) req (TLiteral values)) fs ->
  Dict.get alias d = Some v ->
  validate (TLiteral values) v = false ->
  validate (TModel n fs) (JObj d) = false.
Proof.
  intros Hin Hget Hv. rewrite validate_model.
  destruct (fields_ok d fs) eqn:E; [|reflexivity].
  pose proof (fields_ok_in _ _ _ _ _ _ E Hin) as H.
  unfold field_input in H. rewrite Hget in H. congruence.
Qed.

Lemma literal_one_mismatch (tag : string) (v : json) :
  v <> JStr tag -> validate (TLiteral [tag]) v = false.
Proof.
  intros Hne. destruct v; simpl; auto.
  destruct (String.eqb_spec s tag); [subst; congruence|reflexivity].
Qed.

Lemma relaxometry_rejects_other_tag d v :
  Dict.get "measurementType" d = Some v ->
  v <> JStr "relaxometry_mri" ->
  validate relaxometry_mri.RelaxometryMRIMeasurement (JObj d) = false.
Proof.
  intros Hget Hne.
  unfold relaxometry_mri.RelaxometryMRIMeasurement, subclass.
  eapply literal_tag_mismatch with (name := "measurement_type");
    [ | exact Hget | apply literal_one_mismatch; exact Hne ].
  right. left. reflexivity.
Qed.

Lemma timeseries_rejects_other_tag d v :
  Dict.get "measurementType" d = Some v ->
  v <> JStr "timeseries" ->
  validate timeseries.TimeseriesMeasurement (JObj d) = false.
Proof.
  intros Hget Hne.
  unfold timeseries.TimeseriesMeasurement, subclass.
  eapply literal_tag_mismatch with (name := "measurement_type");
    [ | exact Hget | apply literal_one_mismatch; exact Hne ].
  right. left. reflexivity.
Qed.

Lemma json_str_dec (v : json) (s : string) : {v = JStr s} + {v <> JStr s}.
Proof.
  destruct v; try (right; discriminate).
  destruct (string_dec s0 s); [left; congruence | right; congruence].
Qed.

Lemma literal_field_mismatch n fs name alias req values d v :
  In (Field name alias req (TLiteral values)) fs ->
  field_input d name alias = Some v ->
  validate (TLiteral values) v = false ->
  validate (TModel n fs) (JObj d) = false.
Proof.
  intros Hin Hget Hv. rewrite validate_model.
  destruct (fields_ok d fs) eqn:E; [|reflexivity].
  pose proof (fields_ok_in _ _ _ _ _ _ E Hin) as H.
  rewrite Hget in H. congruence.
Qed.

Lemma relaxometry_rejects_tag d v :
  measurement_tag d = Some v ->
  v <> JStr "relaxometry_mri" ->
  validate relaxometry_mri.RelaxometryMRIMeasurement (JObj d) = false.
Proof.
  intros Hget Hne.
  unfold relaxometry_mri.RelaxometryMRIMeasurement, subclass.
  eapply literal_field_mismatch with (name := "measurement_type");
    [ | exact Hget | apply literal_one_mismatch; exact Hne ].
  right. left. reflexivity.
Qed.

Lemma timeseries_rejects_tag d v :
  measurement_tag d = Some v ->
  v <> JStr "timeseries" ->
  validate timeseries.TimeseriesMeasurement (JObj d) = false.
Proof.
  intros Hget Hne.
  unfold timeseries.TimeseriesMeasurement, subclass.
  eapply literal_field_mismatch with (name := "measurement_type");
    [ | exact Hget | apply literal_one_mismatch; exact Hne ].
  right. left. reflexivity.
Qed.

Lemma fields_ok_app d a b :
  fields_ok d (a ++ b) = fields_ok d a && fields_ok d b.
Proof.
  induction a as [|[name alias req t] a IH]; simpl; auto.
  now rewrite IH, andb_assoc.
Qed.

(** The verdict of ResearchProduct with [measurement] annotated [t]: the
    verdict of the fields before it, of the measurement, and of the fields
    after it. *)
Lemma product_with_measurement_verdict t doc :
  model_validate (product_with_measurement t) (JObj doc)
  = fields_ok doc (firstn 8 (cls_fields research_product.ResearchProduct))
    && match field_input doc "measurement" None with
       | Some x => validate t x
       | None => false
       end
    && fields_ok doc (skipn 9 (cls_fields research_product.ResearchProduct)).
Proof.
  unfold model_validate.
  change (product_with_measurement t)
    with (TModel "ResearchProduct"
            (firstn 8 (cls_fields research_product.ResearchProduct)
             ++ Field "measurement" None true t
                :: skipn 9 (cls_fields research_product.ResearchProduct))).
  rewrite validate_model, fields_ok_app.
  set (pre := firstn 8 _). set (post := skipn 9 _).
  cbn [fields_ok negb]. now rewrite andb_assoc.
Qed.

Lemma product_is_with_union :
  research_product.ResearchProduct
  = product_with_measurement
      (TUnion [relaxometry_mri.RelaxometryMRIMeasurement;
               timeseries.TimeseriesMeasurement]).
Proof. reflexivity. Qed.

(** C6 (counterexample).  A ResearchProduct whose measurement object has
    no [measurementType], and so matches neither literal, validates.  The
    object has a sampling rate of -1, which the timeseries variant
    rejects: the document is accepted through the MRI variant, which does
    not look at [samplingRate]. *)
Lemma C6_untagged_measurement_accepted :
  measurement_tag untagged_measurement = None
  /\ model_validate research_product.ResearchProduct
       (JObj (product_doc (participant_ref "sub-01")
                (JObj untagged_measurement))) = true
  /\ validate timeseries.TimeseriesMeasurement (JObj untagged_measurement)
     = false
  /\ validate relaxometry_mri.RelaxometryMRIMeasurement
       (JObj untagged_measurement) = true.
Proof. repeat split; vm_compute; reflexivity. Qed.

(** C6 (amended).  The measurement of a ResearchProduct is a plain union
    of the two variants: a document validates exactly when it validates
    with [measurement] annotated with the MRI variant or with the
    timeseries variant.  When the measurement object gives ["timeseries"]
    for its tag, the document is rejected with the MRI annotation and gets
    the verdict it has with the timeseries annotation; when it gives
    ["relaxometry_mri"], it is rejected with the timeseries annotation and
    gets the verdict it has with the MRI annotation; when it gives any
    other value, the document is rejected.  A measurement object that
    gives no tag is not covered by these cases: the union decides.  The
    timeseries variant requires no MRI field: the minimal timeseries
    product validates. *)
Theorem C6_measurement_resolved_by_variants :
  (forall doc : pydict,
      model_validate research_product.ResearchProduct (JObj doc)
      = model_validate
          (product_with_measurement
             relaxometry_mri.RelaxometryMRIMeasurement) (JObj doc)
        || model_validate
             (product_with_measurement timeseries.TimeseriesMeasurement)
             (JObj doc))
  /\ (forall (doc d : pydict) (v : json),
         field_input doc "measurement" None = Some (JObj d) ->
         measurement_tag d = Some v ->
         (v = JStr "timeseries" ->
          model_validate
            (product_with_measurement
               relaxometry_mri.RelaxometryMRIMeasurement) (JObj doc) = false
          /\ model_validate research_product.ResearchProduct (JObj doc)
             = model_validate
                 (product_with_measurement timeseries.TimeseriesMeasurement)
                 (JObj doc))
         /\ (v = JStr "relaxometry_mri" ->
             model_validate
               (product_with_measurement timeseries.TimeseriesMeasurement)
               (JObj doc) = false
             /\ model_validate research_product.ResearchProduct (JObj doc)
                = model_validate
                    (product_with_measurement
                       relaxometry_mri.RelaxometryMRIMeasurement)
                    (JObj doc))
         /\ (v <> JStr "timeseries" -> v <> JStr "relaxometry_mri" ->
             model_validate research_product.ResearchProduct (JObj doc)
             = false))
  /\ measurement_tag [("measurementType", JStr "timeseries");
                      ("specificMeasure", JStr "eeg")]
     = Some (JStr "timeseries")
  /\ model_validate research_product.ResearchProduct (JObj minimal_product)
     = true.
Proof.
  assert (Hunion : forall doc : pydict,
             model_validate research_product.ResearchProduct (JObj doc)
             = model_validate
                 (product_with_measurement
                    relaxometry_mri.RelaxometryMRIMeasurement) (JObj doc)
               || model_validate
                    (product_with_measurement
                       timeseries.TimeseriesMeasurement) (JObj doc)).
  { intros doc. rewrite product_is_with_union at 1.
    rewrite !product_with_measurement_verdict.
    destruct (field_input doc "measurement" None) as [x|].
    - rewrite validate_union2.
      destruct (fields_ok doc _), (fields_ok doc _),
        (validate relaxometry_mri.RelaxometryMRIMeasurement x),
        (validate timeseries.TimeseriesMeasurement x); reflexivity.
    - destruct (fields_ok doc _), (fields_ok doc _); reflexivity. }
  split; [exact Hunion|]. split; [|split; reflexivity].
  intros doc d v Hm Htag.
  assert (Hmri : v <> JStr "relaxometry_mri" ->
                 model_validate
                   (product_with_measurement
                      relaxometry_mri.RelaxometryMRIMeasurement) (JObj doc)
                 = false).
  { intros Hne. rewrite product_with_measurement_verdict, Hm.
    rewrite (relaxometry_rejects_tag _ _ Htag Hne).
    now rewrite andb_false_r. }
  assert (Hts : v <> JStr "timeseries" ->
                model_validate
                  (product_with_measurement timeseries.TimeseriesMeasurement)
                  (JObj doc) = false).
  { intros Hne. rewrite product_with_measurement_verdict, Hm.
    rewrite (timeseries_rejects_tag _ _ Htag Hne).
    now rewrite andb_false_r. }
  split; [|split].
  - intros ->. rewrite Hunion. rewrite Hmri by discriminate. now split.
  - intros ->. rewrite Hunion. rewrite Hts by discriminate.
    split; [reflexivity|apply orb_false_r].
  - intros H1 H2. now rewrite Hunion, (Hmri H2), (Hts H1).
Qed.

Lemma C6_measurement_resolved_by_variants_witness :
  field_input minimal_product "measurement" None = Some timeseries_eeg
  /\ model_validate
       (product_with_measurement relaxometry_mri.RelaxometryMRIMeasurement)
       (JObj minimal_product) = false
  /\ model_validate research_product.ResearchProduct (JObj minimal_product)
     = model_validate
         (product_with_measurement timeseries.TimeseriesMeasurement)
         (JObj minimal_product)
  /\ model_validate
       (product_with_measurement timeseries.TimeseriesMeasurement)
       (JObj minimal_product) = true.
Proof.
  split; [reflexivity|].
  destruct C6_measurement_resolved_by_variants as (_ & H & _).
  destruct (H minimal_product
              [("measurementType", JStr "timeseries");
               ("specificMeasure", JStr "eeg")]
              (JStr "timeseries") eq_refl eq_refl) as (Hts & _).
  destruct (Hts eq_refl) as [H1 H2].
  split; [exact H1|]. split; [exact H2|]. reflexivity.
Defined.

(** ** Numeric bounds *)

Lemma in_bounds_between lo hi q :
  in_bounds (between lo hi) q = true <-> (lo <= q <= hi)%Q.
Proof.
  unfold in_bounds, between. simpl. rewrite andb_true_r.
  rewrite andb_true_iff, !Qle_bool_iff. tauto.
Qed.

Lemma confidence_level_checked (q : Q) :
  model_validate aggregate.ConfidenceInterval
    (confidence_interval_doc (JFloat q))
  = in_bounds (between 0 1) q.
Proof.
  unfold model_validate, confidence_interval_doc. cbn -[in_bounds].
  now rewrite andb_true_r.
Qed.

Lemma flip_angle_checked (q : Q) :
  model_validate relaxometry_mri.AcquisitionParameters
    (acquisition_doc (JFloat q))
  = in_bounds (between 0 180) q.
Proof.
  unfold model_validate, acquisition_doc. cbn -[in_bounds].
  now rewrite andb_true_r.
Qed.

Lemma p_value_checked (q : Q) :
  model_validate aggregate.StatisticalTest (statistical_test_doc (JFloat q))
  = in_bounds (between 0 1) q.
Proof.
  unfold model_validate, statistical_test_doc. cbn -[in_bounds].
  now rewrite andb_true_r.
Qed.

(** C7.  Range constraints are inclusive at both ends.  A confidence
    interval with a float level [q] is accepted exactly when
    [0 <= q <= 1]: 1.1 is rejected, 0.95 is accepted, and so are the ends
    0 and 1.  Acquisition parameters with a flip angle [q] are accepted
    exactly when [0 <= q <= 180]: 181 is rejected, 180 and 0 are
    accepted. *)
Theorem C7_bounds_inclusive :
  (forall q : Q,
      model_validate aggregate.ConfidenceInterval
        (confidence_interval_doc (JFloat q)) = true
      <-> (0 <= q <= 1)%Q)
  /\ model_validate aggregate.ConfidenceInterval
       (confidence_interval_doc (JFloat (11 # 10))) = false
  /\ model_validate aggregate.ConfidenceInterval
       (confidence_interval_doc (JFloat (95 # 100))) = true
  /\ model_validate aggregate.ConfidenceInterval
       (confidence_interval_doc (JFloat 0)) = true
  /\ model_validate aggregate.ConfidenceInterval
       (confidence_interval_doc (JFloat 1)) = true
  /\ (forall q : Q,
         model_validate relaxometry_mri.AcquisitionParameters
           (acquisition_doc (JFloat q)) = true
         <-> (0 <= q <= 180)%Q)
  /\ model_validate relaxometry_mri.AcquisitionParameters
       (acquisition_doc (JInt 181)) = false
  /\ model_validate relaxometry_mri.AcquisitionParameters
       (acquisition_doc (JInt 180)) = true
  /\ model_validate relaxometry_mri.AcquisitionParameters
       (acquisition_doc (JInt 0)) = true.
Proof.
  split; [|split; [|split; [|split; [|split; [|split]]]]];
    try (vm_compute; reflexivity).
  - intros q. rewrite confidence_level_checked. apply in_bounds_between.
  - intros q. rewrite flip_angle_checked. apply in_bounds_between.
  - repeat split; vm_compute; reflexivity.
Qed.

(** C8 (the code departs from the claim).  The claim: every p-value field
    rejects values outside [0, 1].  [StatisticalTest.p_value] is declared
    with [ge=0, le=1] and does: a test with p-value [q] is accepted exactly
    when [0 <= q <= 1].  [PostHocComparison.p_value] is declared without
    bounds: a comparison is accepted with every float for a p-value, 1.5
    and -0.5 included, also as part of an AggregateStatistics document. *)
Theorem C8_post_hoc_p_value_unchecked :
  (forall q : Q,
      model_validate aggregate.StatisticalTest
        (statistical_test_doc (JFloat q)) = true
      <-> (0 <= q <= 1)%Q)
  /\ (forall q : Q,
         model_validate aggregate.PostHocComparison (post_hoc_doc (JFloat q))
         = true)
  /\ model_validate aggregate.PostHocComparison
       (post_hoc_doc (JFloat (3 # 2))) = true
  /\ model_validate aggregate.PostHocComparison
       (post_hoc_doc (JFloat (- (1 # 2)))) = true
  /\ model_validate aggregate.AggregateStatistics
       (aggregate_with_post_hoc (JFloat (3 # 2))) = true.
Proof.
  split; [|split; [|split; [|split]]]; try (vm_compute; reflexivity).
  intros q. rewrite p_value_checked. apply in_bounds_between.
Qed.

(** ** The participant identifier *)

(** C10.  The identifier pattern is enforced on the Participant entity
    only.  A ResearchProduct document validates whatever string its
    participant reference has for an identifier, while a Participant
    document with the same identifier validates exactly when the
    identifier matches the pattern: ["sub 01!"] passes inside a
    ResearchProduct and fails as a Participant, ["sub-01"] passes in
    both. *)
Theorem C10_identifier_pattern_on_participant_only :
  (forall s : string,
      model_validate research_product.ResearchProduct
        (JObj (product_doc (participant_ref s) timeseries_eeg)) = true)
  /\ (forall s : string,
         model_validate participant.Participant (JObj (participant_doc s))
         = participant.identifier_pattern s)
  /\ participant.identifier_pattern "sub 01!" = false
  /\ model_validate research_product.ResearchProduct
       (JObj (product_doc (participant_ref "sub 01!") timeseries_eeg))
     = true
  /\ model_validate participant.Participant
       (JObj (participant_doc "sub 01!")) = false
  /\ model_validate participant.Participant
       (JObj (participant_doc "sub-01")) = true.
Proof.
  split; [|split; [|split; [|split; [|split]]]];
    try (vm_compute; reflexivity).
  intros s. unfold model_validate, participant_doc.
  cbn -[participant.identifier_pattern].
  now rewrite andb_true_r.
Qed.

(** ** The validation driver *)

(** The minimal ResearchProduct document validates; without its
    [participant] it does not; a run over the first exits with status 0,
    a run that meets the second, or finds no file, with status 1. *)
Lemma minimal_product_end_to_end :
  validate_research_product (Some (JObj minimal_product)) = true
  /\ validate_research_product
       (Some (JObj (Dict.pop "participant" minimal_product))) = false
  /\ validate_examples [Some (JObj minimal_product)] = 0%Z
  /\ validate_examples
       [Some (JObj minimal_product);
        Some (JObj (Dict.pop "participant" minimal_product))] = 1%Z
  /\ validate_examples [] = 1%Z.
Proof. repeat split; vm_compute; reflexivity. Qed.

(** * Further properties of the projector *)

Lemma keys_set {A} (k : string) (v : A) d :
  Dict.keys (Dict.set k v d) = (Dict.keys d ++ absent_key k d)%list.
Proof.
  unfold absent_key, Dict.mem.
  induction d as [|[k' v'] r IH]; simpl; [reflexivity|].
  destruct (String.eqb k k') eqn:E; simpl.
  - now rewrite app_nil_r.
  - rewrite IH. now destruct (Dict.get k r).
Qed.

Lemma keys_pop {A} (k : string) (d : list (string * A)) :
  Dict.keys (Dict.pop k d)
  = filter (fun k' => negb (String.eqb k k')) (Dict.keys d).
Proof.
  induction d as [|[k' v'] r IH]; simpl; [reflexivity|].
  destruct (String.eqb k k'); simpl; now rewrite IH.
Qed.

Lemma mem_set_other {A} (k k' : string) (v : A) d :
  k <> k' -> Dict.mem k (Dict.set k' v d) = Dict.mem k d.
Proof. intros H. unfold Dict.mem. now rewrite get_set_other. Qed.

Lemma post_process_schema_cases raw id :
  post_process_schema raw id =
  if Dict.mem "properties" raw then
    match py_in "ResearchProduct" (schema_title raw) with
    | Ok true =>
        Ok (Dict.set "additionalProperties" (JBool false)
              (schema_base raw id))
    | Ok false => Ok (schema_base raw id)
    | Raise e => Raise e
    end
  else Ok (schema_base raw id).
Proof.
  unfold post_process_schema, schema_title. fold (schema_base raw id).
  unfold Dict.mem. now rewrite !schema_base_keeps by discriminate.
Qed.

(** X1.  Whatever the raw schema held under [additionalProperties], the
    post-processed schema holds [false] there when the raw schema has
    properties and a title containing [ResearchProduct], and has no such
    key otherwise: a value of the raw projection is never carried over. *)
Theorem post_process_schema_additional_properties :
  forall (raw s : pydict) (schema_id : string),
    post_process_schema raw schema_id = Ok s ->
    Dict.get "additionalProperties" s
    = if closes raw then Some (JBool false) else None.
Proof.
  intros raw s id H. rewrite post_process_schema_cases in H.
  pose proof (schema_base_normalized raw id) as (_ & _ & Hap).
  unfold closes.
  destruct (Dict.mem "properties" raw); simpl.
  - destruct (py_in "ResearchProduct" (schema_title raw)) as [[|]|e];
      inversion H; subst s; auto using get_set_same.
  - inversion H; subst s; auto.
Qed.

Lemma post_process_schema_additional_properties_witness :
  post_process_schema
    [("additionalProperties", JBool true); ("properties", JObj []);
     ("title", JStr "Participant")]
    "urn:participant"
  = Ok [("properties", JObj []); ("title", JStr "Participant");
        ("$schema", JStr DRAFT_2020_12); ("$id", JStr "urn:participant")]
  /\ Dict.get "additionalProperties"
       [("properties", JObj []); ("title", JStr "Participant");
        ("$schema", JStr DRAFT_2020_12); ("$id", JStr "urn:participant")]
     = None.
Proof.
  split; [reflexivity|].
  apply (post_process_schema_additional_properties
           [("additionalProperties", JBool true); ("properties", JObj []);
            ("title", JStr "Participant")] _ "urn:participant").
  reflexivity.
Defined.

(** X2.  Post-processing leaves every key other than [$schema], [$id] and
    [additionalProperties] with the value it had in the raw schema. *)
Theorem post_process_schema_keeps_other_keys :
  forall (raw s : pydict) (schema_id k : string),
    post_process_schema raw schema_id = Ok s ->
    k <> "$schema" -> k <> "$id" -> k <> "additionalProperties" ->
    Dict.get k s = Dict.get k raw.
Proof.
  intros raw s id k H H1 H2 H3. rewrite post_process_schema_cases in H.
  destruct (Dict.mem "properties" raw).
  - destruct (py_in "ResearchProduct" (schema_title raw)) as [[|]|e];
      inversion H; subst s.
    + rewrite get_set_other by assumption. now apply schema_base_keeps.
    + now apply schema_base_keeps.
  - inversion H; subst s. now apply schema_base_keeps.
Qed.

Lemma post_process_schema_keeps_other_keys_witness :
  post_process_schema (schema_outline participant.Participant)
    "urn:participant"
  = Ok (schema_base (schema_outline participant.Participant)
          "urn:participant")
  /\ Dict.get "type"
       (schema_base (schema_outline participant.Participant)
          "urn:participant")
     = Dict.get "type" (schema_outline participant.Participant).
Proof.
  split; [reflexivity|].
  apply (post_process_schema_keeps_other_keys
           (schema_outline participant.Participant) _
           "urn:participant" "type");
    [reflexivity | discriminate | discriminate | discriminate].
Defined.

(** X3.  Post-processing raises [TypeError] exactly when the raw schema has
    properties and its title is neither a string, a list nor a dict (null,
    a boolean or a number); a schema without properties, or without a
    title, never raises. *)
Theorem post_process_schema_raises :
  forall (raw : pydict) (schema_id : string),
    post_process_schema raw schema_id = Raise TypeError
    <-> Dict.mem "properties" raw = true
        /\ is_container (schema_title raw) = false.
Proof.
  intros raw id. rewrite post_process_schema_cases.
  destruct (Dict.mem "properties" raw).
  - destruct (schema_title raw) eqn:E; simpl;
      try (split; [intros H; discriminate | intros [_ H]; discriminate]);
      try (split; [auto | reflexivity]).
    + destruct (str_contains "ResearchProduct" s);
        split; try discriminate; intros [_ H]; discriminate.
    + destruct (existsb (json_eqb_str "ResearchProduct") l);
        split; try discriminate; intros [_ H]; discriminate.
    + destruct (Dict.mem "ResearchProduct" d);
        split; try discriminate; intros [_ H]; discriminate.
  - split; [discriminate | intros [H _]; discriminate].
Qed.

Lemma filter_keeps_absent (k k' : string) {A} (d : list (string * A)) :
  k <> k' ->
  filter (fun x => negb (String.eqb k x)) (absent_key k' d) = absent_key k' d.
Proof.
  intros H. unfold absent_key. destruct (Dict.mem k' d); simpl; auto.
  apply String.eqb_neq in H. now rewrite H.
Qed.

(** X4.  Key order is stable: the post-processed schema lists the keys of
    the raw schema in their original order, without
    [additionalProperties]; then [$schema] and [$id] if the raw schema did
    not have them (keys it had keep their place); then
    [additionalProperties] last, when the schema is closed. *)
Theorem post_process_schema_key_order :
  forall (raw s : pydict) (schema_id : string),
    post_process_schema raw schema_id = Ok s ->
    Dict.keys s
    = (filter (fun k => negb (String.eqb "additionalProperties" k))
         (Dict.keys raw)
       ++ absent_key "$schema" raw
       ++ absent_key "$id" raw
       ++ (if closes raw then ["additionalProperties"] else []))%list.
Proof.
  intros raw s id H.
  assert (Hbase : Dict.keys (schema_base raw id)
                  = (filter (fun k => negb (String.eqb "additionalProperties" k))
                       (Dict.keys raw)
                     ++ absent_key "$schema" raw
                     ++ absent_key "$id" raw)%list).
  { unfold schema_base. rewrite keys_pop, !keys_set, !filter_app.
    rewrite <- app_assoc. f_equal. f_equal.
    - apply filter_keeps_absent. discriminate.
    - unfold absent_key at 1. rewrite mem_set_other by discriminate.
      apply (filter_keeps_absent "additionalProperties" "$id" raw).
      discriminate. }
  pose proof (schema_base_normalized raw id) as (_ & _ & Hap).
  rewrite post_process_schema_cases in H. unfold closes.
  destruct (Dict.mem "properties" raw); simpl.
  - destruct (py_in "ResearchProduct" (schema_title raw)) as [[|]|e];
      inversion H; subst s.
    + rewrite keys_set, Hbase. unfold absent_key at 3, Dict.mem.
      rewrite Hap. now rewrite <- !app_assoc.
    + rewrite Hbase. now rewrite app_nil_r.
  - inversion H; subst s. rewrite Hbase. now rewrite app_nil_r.
Qed.

Lemma post_process_schema_key_order_witness :
  post_process_schema
    [("$id", JStr "urn:declared"); ("additionalProperties", JBool true);
     ("properties", JObj []); ("title", JStr "ResearchProduct")]
    "urn:given"
  = Ok [("$id", JStr "urn:given"); ("properties", JObj []);
        ("title", JStr "ResearchProduct");
        ("$schema", JStr DRAFT_2020_12);
        ("additionalProperties", JBool false)]
  /\ Dict.keys
       [("$id", JStr "urn:given"); ("properties", JObj []);
        ("title", JStr "ResearchProduct");
        ("$schema", JStr DRAFT_2020_12);
        ("additionalProperties", JBool false)]
     = ["$id"; "properties"; "title"; "$schema"; "additionalProperties"].
Proof.
  split; [reflexivity|].
  apply (post_process_schema_key_order
           [("$id", JStr "urn:declared");
            ("additionalProperties", JBool true);
            ("properties", JObj []); ("title", JStr "ResearchProduct")]
           _ "urn:given").
  reflexivity.
Defined.

(** * Further properties of the file writes *)

(** X5.  [generate_schema] touches one file only: every other path reads
    as before.  It removes no directory, and when it returns the parent
    directory of the output path and all its ancestors exist. *)
Theorem generate_schema_frame :
  forall (model_class : Type) (model_json_schema : model_class -> pydict)
         (json_dump : json -> string) (m : model_class) (output_path : path)
         (schema_id : string) (fs fs1 : filesystem),
    generate_schema model_class model_json_schema json_dump
      m output_path schema_id fs = Ok fs1 ->
    (forall p, p <> output_path ->
               read_file p (fs_files fs1) = read_file p (fs_files fs))
    /\ (forall d, has_dir d fs = true -> has_dir d fs1 = true)
    /\ (forall d, In d (ancestors (parent output_path)) ->
                  has_dir d fs1 = true).
Proof.
  intros C mjs dump m p id fs fs1 H.
  apply generate_schema_inv in H. destruct H as (s & _ & _ & _ & ->).
  unfold has_dir. simpl. repeat split.
  - intros q Hq. now apply read_write_other.
  - intros d Hd. now apply add_all_keeps.
  - intros d Hd. now apply add_all_adds.
Qed.

Lemma generate_schema_frame_witness :
  generate_schema ftype schema_outline outline_dump
    participant.Participant ["schemas"; "v1"; "participant.json"]
    "urn:participant" (MkFs [["examples"]] [(["README.md"], "text")])
  = Ok (MkFs [["examples"]; ["schemas"]; ["schemas"; "v1"]]
          [(["README.md"], "text");
           (["schemas"; "v1"; "participant.json"],
            "properties,title,type,$schema,$id" ++ newline)])
  /\ read_file ["README.md"]
       [(["README.md"], "text");
        (["schemas"; "v1"; "participant.json"],
         "properties,title,type,$schema,$id" ++ newline)]
     = read_file ["README.md"] [(["README.md"], "text")].
Proof.
  split; [reflexivity|].
  apply (generate_schema_frame ftype schema_outline outline_dump
           participant.Participant ["schemas"; "v1"; "participant.json"]
           "urn:participant"
           (MkFs [["examples"]] [(["README.md"], "text")])
           (MkFs [["examples"]; ["schemas"]; ["schemas"; "v1"]]
              [(["README.md"], "text");
               (["schemas"; "v1"; "participant.json"],
                "properties,title,type,$schema,$id" ++ newline)])).
  - reflexivity.
  - discriminate.
Defined.

(** * The whole run of the generation driver *)

Lemma generate_all_entries mjs dump fs :
  generate_all mjs dump fs = generate_entries mjs dump schema_table fs.
Proof. reflexivity. Qed.

Lemma generate_raised mjs dump l e :
  fold_left (generate_step mjs dump) l (Raise e) = Raise e.
Proof. induction l as [|x l IH]; simpl; auto. Qed.

Lemma generate_entries_cons mjs dump m p id l fs :
  generate_entries mjs dump ((m, p, id) :: l) fs
  = match generate_schema ftype mjs dump m p id fs with
    | Ok fs' => generate_entries mjs dump l fs'
    | Raise e => Raise e
    end.
Proof.
  unfold generate_entries. simpl.
  destruct (generate_schema ftype mjs dump m p id fs); auto.
  apply generate_raised.
Qed.

Lemma generate_schema_document mjs dump m p id fs fs1 :
  generate_schema ftype mjs dump m p id fs = Ok fs1 ->
  entry_document mjs dump (m, p, id) <> None
  /\ read_file p (fs_files fs1) = entry_document mjs dump (m, p, id).
Proof.
  intros H. apply generate_schema_inv in H.
  destruct H as (s & Hs & _ & _ & ->). unfold entry_document.
  rewrite Hs. simpl. split; [discriminate|]. apply read_write_same.
Qed.

Lemma apart_spec l :
  paths_apart l = true ->
  forall e e', In e l -> In e' l ->
    ~ In (entry_path e) (ancestors (parent (entry_path e'))).
Proof.
  unfold paths_apart. rewrite forallb_forall. intros H e e' He He' Hin.
  specialize (H e He). rewrite forallb_forall in H. specialize (H e' He').
  apply negb_true_iff in H.
  assert (existsb (path_eqb (entry_path e))
            (ancestors (parent (entry_path e'))) = true); [|congruence].
  apply existsb_exists. exists (entry_path e). split; auto.
  apply path_eqb_refl.
Qed.

Lemma tree_admits_spec l fs :
  tree_admits l fs = true <->
  forall e, In e l ->
    blocked (parent (entry_path e)) (fs_files fs) = false
    /\ is_dir (entry_path e) (fs_dirs fs) = false.
Proof.
  unfold tree_admits. rewrite forallb_forall. split; intros H e He.
  - specialize (H e He). apply andb_prop in H. destruct H as [H1 H2].
    now rewrite negb_true_iff in H1, H2.
  - destruct (H e He) as [-> ->]. reflexivity.
Qed.

(** A call that returns changes nothing for an entry whose path is apart
    from the one written. *)
Lemma step_keeps_admission mjs dump m p id fs fs1 q :
  generate_schema ftype mjs dump m p id fs = Ok fs1 ->
  ~ In p (ancestors (parent q)) ->
  ~ In q (ancestors (parent p)) ->
  blocked (parent q) (fs_files fs1) = blocked (parent q) (fs_files fs)
  /\ is_dir q (fs_dirs fs1) = is_dir q (fs_dirs fs).
Proof.
  intros H H1 H2. apply generate_schema_inv in H.
  destruct H as (s & _ & _ & _ & ->). simpl. split.
  - now apply blocked_write_other.
  - unfold mkdir_p. now apply add_all_other.
Qed.

(** A call that returns unblocks nothing. *)
Lemma step_keeps_obstacle mjs dump m p id fs fs1 q :
  generate_schema ftype mjs dump m p id fs = Ok fs1 ->
  blocked (parent q) (fs_files fs) = true \/ is_dir q (fs_dirs fs) = true ->
  blocked (parent q) (fs_files fs1) = true \/ is_dir q (fs_dirs fs1) = true.
Proof.
  intros H Hq. apply generate_schema_inv in H.
  destruct H as (s & _ & _ & _ & ->). simpl. destruct Hq as [Hq|Hq].
  - left. now apply blocked_write_keeps.
  - right. unfold is_dir, mkdir_p. now apply add_all_keeps.
Qed.

Lemma generate_entries_frame mjs dump l : forall fs fs1,
  generate_entries mjs dump l fs = Ok fs1 ->
  (forall q, ~ In q (map entry_path l) ->
             read_file q (fs_files fs1) = read_file q (fs_files fs))
  /\ (forall d, has_dir d fs = true -> has_dir d fs1 = true).
Proof.
  induction l as [|[[m p] id] l IH]; intros fs fs1 H.
  - inversion H; subst. auto.
  - rewrite generate_entries_cons in H.
    destruct (generate_schema ftype mjs dump m p id fs) as [fs'|e] eqn:E;
      [|discriminate].
    destruct (generate_schema_frame _ _ _ _ _ _ _ _ E) as (Hf & Hd & _).
    destruct (IH _ _ H) as [IHf IHd]. split.
    + intros q Hq. simpl in Hq. rewrite IHf by tauto.
      apply Hf. intros ->. apply Hq. left. reflexivity.
    + intros d Hdir. auto.
Qed.

Lemma generate_entries_admission mjs dump l : forall fs fs1 q,
  generate_entries mjs dump l fs = Ok fs1 ->
  (forall e, In e l ->
     ~ In (entry_path e) (ancestors (parent q))
     /\ ~ In q (ancestors (parent (entry_path e)))) ->
  blocked (parent q) (fs_files fs1) = blocked (parent q) (fs_files fs)
  /\ is_dir q (fs_dirs fs1) = is_dir q (fs_dirs fs).
Proof.
  induction l as [|[[m p] id] l IH]; intros fs fs1 q H Hq.
  - inversion H; subst. auto.
  - rewrite generate_entries_cons in H.
    destruct (generate_schema ftype mjs dump m p id fs) as [fs'|e] eqn:E;
      [|discriminate].
    destruct (Hq (m, p, id) (or_introl eq_refl)) as [H1 H2].
    destruct (step_keeps_admission _ _ _ _ _ _ _ q E H1 H2) as [<- <-].
    apply (IH fs' fs1 q H). intros e He. apply Hq. now right.
Qed.

(** After a run that returns, every entry is settled: its document is in
    place, the directories above it exist, and the tree still admits the
    entry. *)
Lemma generate_entries_documents mjs dump l : forall fs fs1,
  NoDup (map entry_path l) ->
  (forall e e', In e l -> In e' l ->
     ~ In (entry_path e) (ancestors (parent (entry_path e')))) ->
  generate_entries mjs dump l fs = Ok fs1 ->
  forall entry, In entry l ->
    entry_document mjs dump entry <> None
    /\ read_file (entry_path entry) (fs_files fs1)
       = entry_document mjs dump entry
    /\ (forall d, In d (ancestors (parent (entry_path entry))) ->
                  has_dir d fs1 = true)
    /\ blocked (parent (entry_path entry)) (fs_files fs1) = false
    /\ is_dir (entry_path entry) (fs_dirs fs1) = false.
Proof.
  induction l as [|[[m p] id] l IH]; intros fs fs1 Hnd Hap H entry Hin;
    [contradiction|].
  rewrite generate_entries_cons in H.
  destruct (generate_schema ftype mjs dump m p id fs) as [fs'|e] eqn:E;
    [|discriminate].
  simpl in Hnd. inversion Hnd as [|? ? Hnotin Hnd']; subst.
  destruct Hin as [<-|Hin].
  - destruct (generate_schema_document _ _ _ _ _ _ _ E) as [Hsome Hread].
    destruct (generate_schema_frame _ _ _ _ _ _ _ _ E) as (_ & _ & Hanc).
    destruct (generate_entries_frame _ _ _ _ _ H) as [Hf Hd].
    destruct (generate_entries_admission _ _ _ _ _ p H) as [Hb Hdir].
    { intros e He. split.
      - apply (Hap e (m, p, id)); [now right | now left].
      - apply (Hap (m, p, id) e); [now left | now right]. }
    apply generate_schema_inv in E.
    destruct E as (s & _ & Hb0 & Hd0 & ->).
    destruct (generate_schema_again (fs_dirs fs) p
                (dump (JObj s) ++ newline) (fs_files fs) Hb0 Hd0)
      as [Hb1 Hd1].
    unfold entry_path in *. simpl in *.
    repeat split; auto; try congruence.
    now rewrite Hf.
  - apply (IH fs' fs1); auto.
    intros e e' He He'. apply Hap; now right.
Qed.

Lemma generate_entries_returns mjs dump l : forall fs,
  (forall e e', In e l -> In e' l ->
     ~ In (entry_path e) (ancestors (parent (entry_path e')))) ->
  (forall entry, In entry l -> entry_document mjs dump entry <> None) ->
  (forall e, In e l ->
     blocked (parent (entry_path e)) (fs_files fs) = false
     /\ is_dir (entry_path e) (fs_dirs fs) = false) ->
  exists fs1, generate_entries mjs dump l fs = Ok fs1.
Proof.
  induction l as [|[[m p] id] l IH]; intros fs Hap Hdoc Hadm.
  - exists fs. reflexivity.
  - rewrite generate_entries_cons.
    assert (Hhead := Hdoc (m, p, id) (or_introl eq_refl)).
    unfold entry_document in Hhead.
    destruct (post_process_schema (mjs m) id) as [s|e] eqn:Hs;
      [|congruence].
    destruct (Hadm (m, p, id) (or_introl eq_refl)) as [Hb Hd].
    unfold entry_path in Hb, Hd. simpl in Hb, Hd.
    pose proof (generate_schema_ok ftype mjs dump m p id fs s Hs Hb Hd)
      as E.
    rewrite E. apply IH.
    + intros e e' He He'. apply Hap; now right.
    + intros entry Hin. apply Hdoc. now right.
    + intros e He. destruct (Hadm e (or_intror He)) as [Hbe Hde].
      destruct (step_keeps_admission _ _ _ _ _ _ _ (entry_path e) E)
        as [-> ->]; auto.
      * apply (Hap (m, p, id) e); [now left | now right].
      * apply (Hap e (m, p, id)); [now right | now left].
Qed.

Lemma generate_entries_obstructed mjs dump l : forall fs,
  (forall entry, In entry l -> entry_document mjs dump entry <> None) ->
  (exists e, In e l
             /\ (blocked (parent (entry_path e)) (fs_files fs) = true
                 \/ is_dir (entry_path e) (fs_dirs fs) = true)) ->
  generate_entries mjs dump l fs = Raise OSError.
Proof.
  induction l as [|[[m p] id] l IH]; intros fs Hdoc (e & He & Hobs);
    [contradiction|].
  rewrite generate_entries_cons.
  assert (Hhead := Hdoc (m, p, id) (or_introl eq_refl)).
  unfold entry_document in Hhead.
  destruct (post_process_schema (mjs m) id) as [s|x] eqn:Hs; [|congruence].
  destruct (blocked (parent p) (fs_files fs)) eqn:Hb.
  { now rewrite (generate_schema_os_error ftype mjs dump m p id fs s Hs)
      by auto. }
  destruct (is_dir p (fs_dirs fs)) eqn:Hd.
  { now rewrite (generate_schema_os_error ftype mjs dump m p id fs s Hs)
      by auto. }
  pose proof (generate_schema_ok ftype mjs dump m p id fs s Hs Hb Hd) as E.
  rewrite E. apply IH.
  - intros entry Hin. apply Hdoc. now right.
  - destruct He as [<-|He].
    + unfold entry_path in Hobs. simpl in Hobs.
      destruct Hobs; congruence.
    + exists e. split; auto.
      now apply (step_keeps_obstacle _ _ _ _ _ _ _ (entry_path e) E).
Qed.

Lemma generate_schema_settled mjs dump m p id fs :
  entry_document mjs dump (m, p, id) <> None ->
  read_file p (fs_files fs) = entry_document mjs dump (m, p, id) ->
  (forall d, In d (ancestors (parent p)) -> has_dir d fs = true) ->
  blocked (parent p) (fs_files fs) = false ->
  is_dir p (fs_dirs fs) = false ->
  generate_schema ftype mjs dump m p id fs = Ok fs.
Proof.
  unfold entry_document, has_dir.
  destruct (post_process_schema (mjs m) id) as [s|e] eqn:Hs; [|congruence].
  intros _ Hread Hdirs Hb Hd.
  rewrite (generate_schema_ok ftype mjs dump m p id fs s Hs Hb Hd).
  destruct fs as [ds fl]. simpl in *.
  rewrite (write_present _ _ _ Hread). unfold mkdir_p.
  now rewrite add_all_present.
Qed.

Lemma generate_entries_settled mjs dump l fs :
  (forall entry, In entry l ->
     entry_document mjs dump entry <> None
     /\ read_file (entry_path entry) (fs_files fs)
        = entry_document mjs dump entry
     /\ (forall d, In d (ancestors (parent (entry_path entry))) ->
                   has_dir d fs = true)
     /\ blocked (parent (entry_path entry)) (fs_files fs) = false
     /\ is_dir (entry_path entry) (fs_dirs fs) = false) ->
  generate_entries mjs dump l fs = Ok fs.
Proof.
  induction l as [|[[m p] id] l IH]; intros H; [reflexivity|].
  rewrite generate_entries_cons.
  destruct (H (m, p, id) (or_introl eq_refl)) as (H1 & H2 & H3 & H4 & H5).
  rewrite (generate_schema_settled _ _ _ _ _ _ H1 H2 H3 H4 H5).
  apply IH. intros entry Hin. apply H. now right.
Qed.

Lemma schema_paths_distinct : NoDup (map entry_path schema_table).
Proof.
  unfold schema_table, entry_path. simpl.
  repeat (constructor; [simpl; intuition discriminate|]).
  constructor.
Qed.

Lemma schema_paths_apart : paths_apart schema_table = true.
Proof. vm_compute. reflexivity. Qed.

(** X6.  A complete run of the generation driver, for a raw projection
    that gives every schema a string for a title.  On a file tree whose
    shape admits the nine entries (no parent directory of an output path
    is, or lies below, a regular file, and no output path is a directory)
    the run returns; each of the nine output paths then holds the encoding
    of the post-processed schema of its own class, followed by a newline
    (no call overwrites the file of another); and every path outside the
    nine reads as before the run.  On any other tree the run raises
    [OSError]. *)
Theorem generate_all_writes_each_document :
  forall (model_json_schema : ftype -> pydict) (json_dump : json -> string)
         (fs : filesystem),
    (forall m, exists t,
        Dict.get "title" (model_json_schema m) = Some (JStr t)) ->
    (tree_admits schema_table fs = true ->
     exists fs1,
       generate_all model_json_schema json_dump fs = Ok fs1
       /\ (forall m p schema_id,
              In (m, p, schema_id) schema_table ->
              exists s,
                post_process_schema (model_json_schema m) schema_id = Ok s
                /\ read_file p (fs_files fs1)
                   = Some (json_dump (JObj s) ++ newline))
       /\ (forall q, ~ In q (map entry_path schema_table) ->
                     read_file q (fs_files fs1) = read_file q (fs_files fs)))
    /\ (tree_admits schema_table fs = false ->
        generate_all model_json_schema json_dump fs = Raise OSError).
Proof.
  intros mjs dump fs Ht. rewrite generate_all_entries.
  assert (Hdoc : forall entry, entry_document mjs dump entry <> None).
  { intros [[m p] id]. unfold entry_document.
    destruct (Ht m) as [t Hm].
    now rewrite (post_process_schema_titled _ id _ Hm). }
  pose proof (apart_spec _ schema_paths_apart) as Hap.
  split.
  - intros Hadm. pose proof (proj1 (tree_admits_spec _ _) Hadm) as Hadm'.
    clear Hadm; rename Hadm' into Hadm.
    destruct (generate_entries_returns mjs dump schema_table fs Hap
                (fun e _ => Hdoc e) Hadm) as [fs1 Hrun].
    exists fs1. split; [exact Hrun|]. split.
    + intros m p id Hin.
      destruct (generate_entries_documents _ _ _ _ _ schema_paths_distinct
                  Hap Hrun _ Hin) as (_ & Hread & _).
      unfold entry_document, entry_path in Hread. simpl in Hread.
      destruct (post_process_schema (mjs m) id) as [s|e] eqn:E.
      * exists s. auto.
      * exfalso. apply (Hdoc (m, p, id)). unfold entry_document.
        now rewrite E.
    + apply (generate_entries_frame _ _ _ _ _ Hrun).
  - intros Hadm. apply generate_entries_obstructed.
    + intros e _. apply Hdoc.
    + unfold tree_admits in Hadm.
      assert (Hex : existsb
                      (fun e =>
                         negb (negb (blocked (parent (entry_path e))
                                       (fs_files fs))
                               && negb (is_dir (entry_path e) (fs_dirs fs))))
                      schema_table = true).
      { clear - Hadm. induction schema_table as [|e l IH]; simpl in *;
          [discriminate|].
        destruct (negb (blocked (parent (entry_path e)) (fs_files fs))
                  && negb (is_dir (entry_path e) (fs_dirs fs))); simpl; auto. }
      apply existsb_exists in Hex. destruct Hex as (e & He & Hobs).
      exists e. split; auto.
      destruct (blocked (parent (entry_path e)) (fs_files fs)) eqn:Hb; auto.
      destruct (is_dir (entry_path e) (fs_dirs fs)) eqn:Hd; auto.
Qed.

Lemma generate_all_writes_each_document_witness :
  tree_admits schema_table empty_fs = true
  /\ (exists fs1,
        generate_all schema_outline outline_dump empty_fs = Ok fs1
        /\ (forall m p schema_id,
               In (m, p, schema_id) schema_table ->
               exists s,
                 post_process_schema (schema_outline m) schema_id = Ok s
                 /\ read_file p (fs_files fs1)
                    = Some (outline_dump (JObj s) ++ newline))
        /\ (forall q, ~ In q (map entry_path schema_table) ->
                      read_file q (fs_files fs1)
                      = read_file q (fs_files empty_fs)))
  /\ generate_all schema_outline outline_dump
       (MkFs [] [(["schemas"], "a regular file")]) = Raise OSError.
Proof.
  split; [reflexivity|]. split.
  - apply (generate_all_writes_each_document schema_outline outline_dump
             empty_fs).
    + intros m. exists (cls_name m). reflexivity.
    + reflexivity.
  - apply (generate_all_writes_each_document schema_outline outline_dump
             (MkFs [] [(["schemas"], "a regular file")])).
    + intros m. exists (cls_name m). reflexivity.
    + reflexivity.
Defined.

(** X7.  Running the generation driver a second time changes nothing: the
    file tree a run returns is a fixed point of the run. *)
Theorem generate_all_idempotent :
  forall (model_json_schema : ftype -> pydict) (json_dump : json -> string)
         (fs fs1 : filesystem),
    generate_all model_json_schema json_dump fs = Ok fs1 ->
    generate_all model_json_schema json_dump fs1 = Ok fs1.
Proof.
  intros mjs dump fs fs1 H. rewrite generate_all_entries in *.
  apply generate_entries_settled. intros entry Hin.
  exact (generate_entries_documents _ _ _ _ _ schema_paths_distinct
           (apart_spec _ schema_paths_apart) H entry Hin).
Qed.

Lemma generate_all_idempotent_witness :
  exists fs1,
    generate_all schema_outline outline_dump empty_fs = Ok fs1
    /\ generate_all schema_outline outline_dump fs1 = Ok fs1.
Proof.
  eexists. split.
  - vm_compute. reflexivity.
  - apply (generate_all_idempotent schema_outline outline_dump empty_fs).
    vm_compute. reflexivity.
Defined.

(** * Further properties of validation *)

Lemma fields_ok_verdicts d fs : fields_ok d fs = forallb (field_verdict d) fs.
Proof.
  induction fs as [|[name alias req t] r IH]; simpl; [reflexivity|].
  now rewrite IH.
Qed.

Lemma required_field_present d fs name alias t :
  fields_ok d fs = true ->
  In (Field name alias true t) fs ->
  field_input d name alias <> None.
Proof.
  intros Hok Hin E. pose proof (fields_ok_in _ _ _ _ _ _ Hok Hin) as H.
  rewrite E in H. discriminate.
Qed.

Lemma input_present_mem d name alias :
  field_input d name (Some alias) <> None ->
  Dict.mem alias d || Dict.mem name d = true.
Proof.
  unfold field_input, Dict.mem. destruct (Dict.get alias d); auto.
  destruct (Dict.get name d); auto.
Qed.

(** ** scripts/validate_examples.py *)


(** ** Required fields, tags and enumerations *)

(** X9.  A document that validates as a ResearchProduct gives each of the
    six required fields, under its alias or under its internal name:
    [@context], [@id], [productType], [processingLevel], [participant] and
    [measurement].  ([@type] may be left out: it has a default.) *)
Theorem research_product_required_fields :
  forall d : pydict,
    model_validate research_product.ResearchProduct (JObj d) = true ->
    Dict.mem "@context" d || Dict.mem "context" d = true
    /\ Dict.mem "@id" d || Dict.mem "id_" d = true
    /\ Dict.mem "productType" d || Dict.mem "product_type" d = true
    /\ Dict.mem "processingLevel" d || Dict.mem "processing_level" d = true
    /\ Dict.mem "participant" d = true
    /\ Dict.mem "measurement" d = true.
Proof.
  intros d H. unfold model_validate, research_product.ResearchProduct in H.
  rewrite validate_model in H.
  repeat split.
  - apply input_present_mem.
    eapply required_field_present; [exact H|]. left. reflexivity.
  - apply input_present_mem.
    eapply required_field_present; [exact H|]. do 2 right. left. reflexivity.
  - apply input_present_mem.
    eapply required_field_present; [exact H|]. do 4 right. left. reflexivity.
  - apply input_present_mem.
    eapply required_field_present; [exact H|]. do 5 right. left. reflexivity.
  - assert (Hp : field_input d "participant" None <> None).
    { eapply required_field_present; [exact H|].
      do 7 right. left. reflexivity. }
    unfold field_input in Hp. unfold Dict.mem.
    now destruct (Dict.get "participant" d).
  - assert (Hp : field_input d "measurement" None <> None).
    { eapply required_field_present; [exact H|].
      do 8 right. left. reflexivity. }
    unfold field_input in Hp. unfold Dict.mem.
    now destruct (Dict.get "measurement" d).
Qed.

Lemma research_product_required_fields_witness :
  model_validate research_product.ResearchProduct
    (JObj (Dict.pop "@type" minimal_product)) = true
  /\ Dict.mem "participant" (Dict.pop "@type" minimal_product) = true.
Proof.
  split; [reflexivity|].
  apply (research_product_required_fields
           (Dict.pop "@type" minimal_product)).
  reflexivity.
Defined.

Lemma literal_valid values v :
  validate (TLiteral values) v = true ->
  exists s, v = JStr s /\ In s values.
Proof.
  destruct v; simpl; try discriminate. intros H. exists s. split; auto.
  unfold str_mem in H. apply existsb_exists in H.
  destruct H as (x & Hx & E). apply String.eqb_eq in E. now subst x.
Qed.

(** X11.  The enumerations of ResearchProduct are closed and matched
    exactly: in a document that validates, [productType] is one of the six
    declared strings and [processingLevel] one of the four; any other
    value, a different spelling or a non-string included, makes the
    document invalid. *)
Theorem research_product_enumerations_closed :
  forall (d : pydict) (v : json),
    model_validate research_product.ResearchProduct (JObj d) = true ->
    (Dict.get "productType" d = Some v ->
     exists s, v = JStr s /\ In s PRODUCT_TYPES)
    /\ (Dict.get "processingLevel" d = Some v ->
        exists s, v = JStr s /\ In s PROCESSING_LEVELS).
Proof.
  intros d v H. unfold model_validate, research_product.ResearchProduct in H.
  rewrite validate_model in H. split; intros Hget.
  - apply literal_valid.
    pose proof (fields_ok_in d _ "product_type" (Some "productType") true
                  (TLiteral PRODUCT_TYPES) H) as Hf.
    unfold field_input in Hf. rewrite Hget in Hf. apply Hf.
    do 4 right. left. reflexivity.
  - apply literal_valid.
    pose proof (fields_ok_in d _ "processing_level" (Some "processingLevel")
                  true (TLiteral PROCESSING_LEVELS) H) as Hf.
    unfold field_input in Hf. rewrite Hget in Hf. apply Hf.
    do 5 right. left. reflexivity.
Qed.

Lemma research_product_enumerations_closed_witness :
  model_validate research_product.ResearchProduct (JObj minimal_product)
  = true
  /\ (Dict.get "productType" minimal_product
      = Some (JStr "processed_vector") ->
      exists s, JStr "processed_vector" = JStr s /\ In s PRODUCT_TYPES).
Proof.
  split; [reflexivity|].
  apply (research_product_enumerations_closed minimal_product
           (JStr "processed_vector")).
  reflexivity.
Defined.

(** ** Keys, aliases and null, for every class of the package *)

Lemma str_mem_true k l : str_mem k l = true <-> In k l.
Proof.
  unfold str_mem. rewrite existsb_exists. split.
  - intros (x & Hx & E). apply String.eqb_eq in E. now subst.
  - intros H. exists k. split; auto. apply String.eqb_refl.
Qed.

Lemma nodupb_NoDup l : nodupb l = true -> NoDup l.
Proof.
  induction l as [|x r IH]; simpl; intros H; constructor.
  - apply andb_prop in H. destruct H as [H _].
    apply negb_true_iff in H. now apply str_mem_false.
  - apply andb_prop in H. now apply IH.
Qed.

Lemma field_keys_flat fs : field_keys fs = flat_map keys_of fs.
Proof.
  induction fs as [|[n [a|] r t] fs IH]; simpl; auto; now rewrite IH.
Qed.

Lemma nodup_app_disjoint {A} (a b : list A) x :
  NoDup (a ++ b) -> In x a -> In x b -> False.
Proof.
  induction a as [|y a IH]; simpl; intros Hnd Ha Hb; [contradiction|].
  inversion Hnd; subst. destruct Ha as [->|Ha].
  - apply H1. apply in_or_app. now right.
  - now apply IH.
Qed.

Lemma shared_key_same fs : forall f f' k,
  NoDup (flat_map keys_of fs) ->
  In f fs -> In f' fs ->
  In k (keys_of f) -> In k (keys_of f') -> f = f'.
Proof.
  induction fs as [|g fs IH]; intros f f' k Hnd Hf Hf' Hk Hk';
    [contradiction|].
  simpl in Hnd. destruct Hf as [->|Hf], Hf' as [->|Hf']; auto.
  - exfalso. apply (nodup_app_disjoint _ _ k Hnd Hk).
    apply in_flat_map. eauto.
  - exfalso. apply (nodup_app_disjoint _ _ k Hnd Hk').
    apply in_flat_map. eauto.
  - apply (IH f f' k); auto. now apply NoDup_app_remove_l in Hnd.
Qed.

Lemma field_input_keys d1 d2 f :
  (forall k, In k (keys_of f) -> Dict.get k d1 = Dict.get k d2) ->
  field_input d1 (field_name f) (field_alias f)
  = field_input d2 (field_name f) (field_alias f).
Proof.
  destruct f as [n [a|] r t]; unfold keys_of, field_input; simpl; intros H.
  - rewrite (H a), (H n) by auto. reflexivity.
  - now rewrite (H n) by auto.
Qed.

Lemma forallb_agree {A} (f g : A -> bool) l :
  (forall x, In x l -> f x = g x) -> forallb f l = forallb g l.
Proof.
  induction l as [|x l IH]; simpl; intros H; auto.
  rewrite (H x) by auto. f_equal. apply IH. auto.
Qed.

(** Two dicts that differ only under the keys of one field of a class,
    and give that field the same verdict, get the same verdict from the
    class. *)
Lemma local_change fs d1 d2 f :
  NoDup (field_keys fs) ->
  In f fs ->
  (forall k, ~ In k (keys_of f) -> Dict.get k d1 = Dict.get k d2) ->
  field_verdict d1 f = field_verdict d2 f ->
  fields_ok d1 fs = fields_ok d2 fs.
Proof.
  intros Hnd Hf Hother Hsame. rewrite field_keys_flat in Hnd.
  rewrite !fields_ok_verdicts. apply forallb_agree. intros f' Hf'.
  destruct (existsb (fun k => str_mem k (keys_of f)) (keys_of f')) eqn:E.
  - apply existsb_exists in E. destruct E as (k & Hk' & Hk).
    apply str_mem_true in Hk.
    now rewrite <- (shared_key_same fs f f' k Hnd Hf Hf' Hk Hk').
  - assert (Hin : field_input d1 (field_name f') (field_alias f')
                  = field_input d2 (field_name f') (field_alias f')).
    { apply field_input_keys. intros k Hk. apply Hother. intros Hkf.
      assert (existsb (fun k => str_mem k (keys_of f)) (keys_of f') = true);
        [|congruence].
      apply existsb_exists. exists k. split; auto.
      now apply str_mem_true. }
    unfold field_verdict. now rewrite Hin.
Qed.

Lemma package_well_formed :
  forallb well_formed_class package_classes = true.
Proof. vm_compute. reflexivity. Qed.

Lemma package_class cls :
  In cls package_classes ->
  cls = TModel (cls_name cls) (cls_fields cls)
  /\ NoDup (field_keys (cls_fields cls)).
Proof.
  intros Hin. pose proof package_well_formed as H.
  rewrite forallb_forall in H. specialize (H cls Hin).
  destruct cls; try discriminate. simpl in *. split; auto.
  now apply nodupb_NoDup.
Qed.

(** X12.  In every class of the package, a field declared with an alias is
    accepted under either key: a document that gives the field's value
    under the internal name gets the verdict of the otherwise identical
    document that gives it under the alias. *)
Theorem alias_or_name_every_class :
  forall (cls : ftype) (name alias : string) (req : bool) (t : ftype)
         (d : pydict) (v : json),
    In cls package_classes ->
    In (Field name (Some alias) req t) (cls_fields cls) ->
    Dict.mem alias d = false ->
    Dict.mem name d = false ->
    model_validate cls (JObj (d ++ [(name, v)])%list)
    = model_validate cls (JObj (d ++ [(alias, v)])%list).
Proof.
  intros cls name alias req t d v Hcls Hf Ha Hn.
  destruct (package_class cls Hcls) as [Ecls Hnd].
  apply mem_false_get in Ha. apply mem_false_get in Hn.
  assert (Hne : alias <> name).
  { rewrite field_keys_flat in Hnd.
    assert (Hk : NoDup (keys_of (Field name (Some alias) req t))).
    { clear - Hnd Hf. induction (cls_fields cls) as [|g fs IH];
        [contradiction|].
      simpl in Hnd. destruct Hf as [->|Hf].
      - now apply NoDup_app_remove_r in Hnd.
      - apply IH; auto. now apply NoDup_app_remove_l in Hnd. }
    unfold keys_of in Hk. simpl in Hk. inversion Hk; subst.
    intros ->. apply H1. now left. }
  unfold model_validate. rewrite Ecls, !validate_model.
  apply (local_change _ _ _ (Field name (Some alias) req t) Hnd Hf).
  - intros k Hk. unfold keys_of in Hk. simpl in Hk.
    rewrite !get_snoc_other; auto; intros ->; tauto.
  - unfold field_verdict, field_input. simpl.
    rewrite (get_snoc_other alias name) by assumption.
    rewrite Ha. now rewrite !get_snoc_absent.
Qed.

Lemma alias_or_name_every_class_witness :
  In research_product.ResearchProduct package_classes
  /\ model_validate research_product.ResearchProduct
       (JObj (Dict.pop "productType" minimal_product
              ++ [("product_type", JStr "processed_vector")])%list)
     = model_validate research_product.ResearchProduct
         (JObj (Dict.pop "productType" minimal_product
                ++ [("productType", JStr "processed_vector")])%list)
  /\ model_validate research_product.ResearchProduct
       (JObj (Dict.pop "productType" minimal_product
              ++ [("product_type", JStr "processed_vector")])%list)
     = true.
Proof.
  assert (Hin : In research_product.ResearchProduct package_classes).
  { do 25 right. left. reflexivity. }
  split; [exact Hin|]. split; [|reflexivity].
  apply (alias_or_name_every_class research_product.ResearchProduct
           "product_type" "productType" true (TLiteral PRODUCT_TYPES)
           (Dict.pop "productType" minimal_product)
           (JStr "processed_vector") Hin).
  - do 4 right. left. reflexivity.
  - reflexivity.
  - reflexivity.
Defined.

(** X13.  In every class of the package, JSON null for a field annotated
    [Optional[...]] with a default is the same as leaving the field out:
    adding the key with value null to a document that does not give the
    field leaves the verdict unchanged. *)
Theorem null_is_omission_every_class :
  forall (cls : ftype) (name : string) (alias : option string) (t : ftype)
         (d : pydict) (key : string),
    In cls package_classes ->
    In (Field name alias false (TOptional t)) (cls_fields cls) ->
    In key (keys_of (Field name alias false (TOptional t))) ->
    field_input d name alias = None ->
    model_validate cls (JObj (d ++ [(key, JNull)])%list)
    = model_validate cls (JObj d).
Proof.
  intros cls name alias t d key Hcls Hf Hkey Hnone.
  destruct (package_class cls Hcls) as [Ecls Hnd].
  unfold model_validate. rewrite Ecls, !validate_model.
  apply (local_change _ _ _ (Field name alias false (TOptional t)) Hnd Hf).
  - intros k Hk. apply get_snoc_other. intros ->. contradiction.
  - unfold field_verdict. simpl. rewrite Hnone.
    unfold field_input in *. unfold keys_of in Hkey. simpl in Hkey.
    destruct alias as [a|]; simpl in Hkey.
    + destruct (Dict.get a d) eqn:Ea; [discriminate|].
      destruct Hkey as [<-|[<-|[]]].
      * now rewrite get_snoc_absent.
      * destruct (string_dec a name) as [->|Hne].
        -- now rewrite get_snoc_absent.
        -- rewrite get_snoc_other, Ea by assumption.
           now rewrite get_snoc_absent.
    + destruct Hkey as [<-|[]]. now rewrite get_snoc_absent.
Qed.

Lemma null_is_omission_every_class_witness :
  In research_product.ResearchProduct package_classes
  /\ field_input minimal_product "data" None = None
  /\ model_validate research_product.ResearchProduct
       (JObj (minimal_product ++ [("data", JNull)])%list)
     = model_validate research_product.ResearchProduct
         (JObj minimal_product).
Proof.
  assert (Hin : In research_product.ResearchProduct package_classes).
  { do 25 right. left. reflexivity. }
  split; [exact Hin|]. split; [reflexivity|].
  apply (null_is_omission_every_class research_product.ResearchProduct
           "data" None vector_data.VectorData minimal_product "data" Hin).
  - do 6 right. left. reflexivity.
  - left. reflexivity.
  - reflexivity.
Defined.

(** ** The type tag, for every class of the package *)





(** ** Lax mode, for every class of the package *)








(** ** Nested values *)

Lemma validate_optional_obj t d :
  validate (TOptional t) (JObj d) = validate t (JObj d).
Proof. reflexivity. Qed.

Lemma validate_list t mn mx l :
  validate (TList t mn mx) (JArr l)
  = forallb (validate t) l && length_ok l mn mx.
Proof. reflexivity. Qed.

Lemma field_verdict_in d fs f :
  fields_ok d fs = true -> In f fs -> field_verdict d f = true.
Proof.
  rewrite fields_ok_verdicts, forallb_forall. auto.
Qed.

(** X14.  Constraints of nested classes hold inside a valid document: in
    a ResearchProduct that validates, every processing step of the
    provenance has an integer [stepOrder] of at least 1. *)
Theorem research_product_step_order_positive :
  forall (d p st : pydict) (steps : list json) (z : Z),
    model_validate research_product.ResearchProduct (JObj d) = true ->
    Dict.get "provenance" d = Some (JObj p) ->
    Dict.get "processingSteps" p = Some (JArr steps) ->
    In (JObj st) steps ->
    Dict.get "stepOrder" st = Some (JInt z) ->
    (1 <= z)%Z.
Proof.
  intros d p st steps z H Hp Hs Hin Hz.
  unfold model_validate, research_product.ResearchProduct in H.
  rewrite validate_model in H.
  pose proof (fields_ok_in d _ "provenance" None false
                (Optional common.ProcessingProvenance) H) as H1.
  unfold field_input in H1. rewrite Hp in H1.
  unfold Optional in H1. rewrite validate_optional_obj in H1.
  unfold common.ProcessingProvenance in H1. rewrite validate_model in H1.
  assert (H1' := H1 ltac:(do 9 right; left; reflexivity)). clear H1.
  pose proof (fields_ok_in p _ "processing_steps" (Some "processingSteps")
                true (List_ common.ProcessingStep) H1') as H2.
  unfold field_input in H2. rewrite Hs in H2.
  unfold List_ in H2. rewrite validate_list in H2.
  assert (H2' := H2 ltac:(do 2 right; left; reflexivity)). clear H2.
  apply andb_prop in H2'. destruct H2' as [H2 _].
  rewrite forallb_forall in H2. specialize (H2 _ Hin).
  unfold common.ProcessingStep in H2. rewrite validate_model in H2.
  pose proof (fields_ok_in st _ "step_order" (Some "stepOrder") true
                (TInt (Some 1%Z)) H2) as H3.
  unfold field_input in H3. rewrite Hz in H3.
  assert (H3' := H3 ltac:(right; left; reflexivity)).
  simpl in H3'. now apply Z.leb_le.
Qed.

Lemma research_product_step_order_positive_witness :
  model_validate research_product.ResearchProduct
    (JObj (minimal_product ++ [("provenance", provenance_doc (JInt 1))])%list)
  = true
  /\ model_validate research_product.ResearchProduct
       (JObj (minimal_product
              ++ [("provenance", provenance_doc (JInt 0))])%list)
     = false
  /\ (1 <= 1)%Z.
Proof.
  split; [reflexivity|]. split; [reflexivity|].
  apply (research_product_step_order_positive
           (minimal_product ++ [("provenance", provenance_doc (JInt 1))])%list
           [("wasDerivedFrom", JObj []);
            ("processingSteps",
             JArr [JObj [("stepOrder", JInt 1); ("name", JStr "filter")]])]
           [("stepOrder", JInt 1); ("name", JStr "filter")]
           [JObj [("stepOrder", JInt 1); ("name", JStr "filter")]] 1%Z).
  - reflexivity.
  - reflexivity.
  - reflexivity.
  - left. reflexivity.
  - reflexivity.
Defined.

Lemma in_bounds_above lo q : in_bounds (above lo) q = true <-> (lo < q)%Q.
Proof.
  unfold in_bounds, above. simpl. rewrite andb_true_r, negb_true_iff.
  split.
  - intros H. apply Qnot_le_lt. intros Hle.
    apply Qle_bool_iff in Hle. congruence.
  - intros H. destruct (Qle_bool q lo) eqn:E; auto.
    apply Qle_bool_iff in E. now apply Qlt_not_le in H.
Qed.

Lemma in_bounds_at_least lo q :
  in_bounds (at_least lo) q = true <-> (lo <= q)%Q.
Proof.
  unfold in_bounds, at_least. simpl. rewrite !andb_true_r.
  apply Qle_bool_iff.
Qed.

(** X15.  The lower bounds of the timeseries quantities differ in
    strictness: a sampling rate ([gt=0]) is accepted exactly when its
    value is greater than 0, so 0 is rejected; a duration ([ge=0]) exactly
    when its value is at least 0, so 0 is accepted. *)
Theorem sampling_rate_strict_duration_inclusive :
  (forall q : Q,
      model_validate timeseries.SamplingRate (quantity_doc (JFloat q)) = true
      <-> (0 < q)%Q)
  /\ (forall q : Q,
         model_validate timeseries.Duration (quantity_doc (JFloat q)) = true
         <-> (0 <= q)%Q)
  /\ model_validate timeseries.SamplingRate (quantity_doc (JInt 0)) = false
  /\ model_validate timeseries.Duration (quantity_doc (JInt 0)) = true.
Proof.
  split; [|split; [|split]]; try reflexivity.
  - intros q. rewrite <- in_bounds_above.
    unfold model_validate, quantity_doc. cbn -[in_bounds].
    now rewrite andb_true_r.
  - intros q. rewrite <- in_bounds_at_least.
    unfold model_validate, quantity_doc. cbn -[in_bounds].
    now rewrite andb_true_r.
Qed.

Lemma context_union_valid v :
  validate (TUnion [TLiteral [RAP_CONTEXT]; Dict_str_Any]) v = true ->
  v = JStr RAP_CONTEXT \/ exists c, v = JObj c.
Proof.
  rewrite validate_union2. intros H. apply orb_prop in H.
  destruct H as [H|H].
  - apply literal_valid in H. destruct H as (s & -> & [<-|[]]). now left.
  - destruct v; try discriminate. right. eauto.
Qed.

(** X16.  The JSON-LD context.  For ResearchProduct, Participant,
    ResearchProductCollection and AggregateStatistics a valid document
    has for [@context] either the fixed context URI or an inline object
    (any object); for ResearchAPIDescriptor only the fixed URI is valid,
    an inline object is rejected. *)
Theorem context_literal_or_inline :
  forall (d : pydict) (v : json),
    Dict.get "@context" d = Some v ->
    (forall cls, In cls context_entities ->
                 model_validate cls (JObj d) = true ->
                 v = JStr RAP_CONTEXT \/ exists c, v = JObj c)
    /\ (model_validate api_descriptor.ResearchAPIDescriptor (JObj d) = true ->
        v = JStr RAP_CONTEXT).
Proof.
  intros d v Hget. split.
  - intros cls Hcls H. apply context_union_valid.
    assert (Hf : field_verdict d context_field = true).
    { unfold model_validate in H. simpl in Hcls.
      destruct Hcls as [<-|[<-|[<-|[<-|[]]]]];
        match type of H with
        | validate ?c _ = _ => unfold c in H
        end;
        rewrite validate_model in H;
        apply (field_verdict_in _ _ _ H); left; reflexivity. }
    unfold field_verdict, context_field, required_as, field_input in Hf.
    simpl in Hf. now rewrite Hget in Hf.
  - intros H.
    unfold model_validate, api_descriptor.ResearchAPIDescriptor in H.
    rewrite validate_model in H.
    pose proof (fields_ok_in d _ "context" (Some "@context") true
                  (TLiteral [RAP_CONTEXT]) H) as Hf.
    unfold field_input in Hf. rewrite Hget in Hf.
    assert (Hv := Hf ltac:(left; reflexivity)).
    apply literal_valid in Hv. now destruct Hv as (s & -> & [<-|[]]).
Qed.

Lemma context_literal_or_inline_witness :
  Dict.get "@context"
    (Dict.set "@context" (JObj [("rap", JStr "urn:rap")]) minimal_product)
  = Some (JObj [("rap", JStr "urn:rap")])
  /\ model_validate research_product.ResearchProduct
       (JObj (Dict.set "@context" (JObj [("rap", JStr "urn:rap")])
                minimal_product)) = true
  /\ (JObj [("rap", JStr "urn:rap")] = JStr RAP_CONTEXT
      \/ exists c, JObj [("rap", JStr "urn:rap")] = JObj c).
Proof.
  split; [reflexivity|]. split; [reflexivity|].
  destruct (context_literal_or_inline
              (Dict.set "@context" (JObj [("rap", JStr "urn:rap")])
                 minimal_product)
              (JObj [("rap", JStr "urn:rap")]) eq_refl) as [H _].
  apply (H research_product.ResearchProduct).
  - left. reflexivity.
  - reflexivity.
Defined.

(** ** Collections *)

(** X17.  A ResearchProductCollection document (required fields only) is
    accepted exactly when [totalItems] is at least 0 and every member
    validates as a full ResearchProduct or as a ProductSummary.  The
    member list may be empty, and [totalItems] is not compared with the
    number of members. *)
Theorem collection_members_and_total :
  forall (n : Z) (members : list json),
    model_validate collection.ResearchProductCollection
      (collection_doc (JInt n) members)
    = (0 <=? n)%Z
      && forallb (fun m =>
                    validate research_product.ResearchProduct m
                    || validate collection.ProductSummary m) members.
Proof.
  intros n members.
  unfold model_validate, collection_doc,
    collection.ResearchProductCollection.
  cbn -[research_product.ResearchProduct collection.ProductSummary Z.leb].
  change (negb (is_space "e")) with true.
  rewrite !andb_true_r. cbn [andb]. f_equal.
  apply forallb_agree. intros m _. now rewrite orb_false_r.
Qed.

(** ** Subclasses *)

(** X18.  The measurement variants refine the base class: a document that
    carries a [measurementType] key and validates as a
    TimeseriesMeasurement or as a RelaxometryMRIMeasurement also validates
    as a BaseMeasurement. *)
Theorem variant_is_base_measurement :
  forall (cls : ftype) (d : pydict),
    cls = timeseries.TimeseriesMeasurement
    \/ cls = relaxometry_mri.RelaxometryMRIMeasurement ->
    Dict.mem "measurementType" d = true ->
    model_validate cls (JObj d) = true ->
    model_validate base.BaseMeasurement (JObj d) = true.
Proof.
  intros cls d Hcls Hmem H. apply mem_get in Hmem. destruct Hmem as [x Hx].
  unfold model_validate in *.
  assert (Hshared :
            field_verdict d (type_tag "Measurement") = true
            /\ (exists tag, validate (TLiteral [tag]) x = true)
            /\ field_verdict d
                 (required_as "specific_measure" "specificMeasure" Str)
               = true
            /\ field_verdict d (default "session" (Optional Str)) = true
            /\ field_verdict d
                 (default "unit" (Optional (TUnion [common.Unit; HttpUrl])))
               = true
            /\ field_verdict d
                 (default_as "quantity_kind" "quantityKind"
                    (Optional HttpUrl)) = true).
  { destruct Hcls as [-> | ->];
      [ unfold timeseries.TimeseriesMeasurement, subclass in H
      | unfold relaxometry_mri.RelaxometryMRIMeasurement, subclass in H ];
      rewrite validate_model in H;
      (split; [apply (field_verdict_in _ _ _ H); left; reflexivity|]);
      (split; [|split; [|split; [|split]]]);
      try (apply (field_verdict_in _ _ _ H));
      try (do 2 right; left; reflexivity);
      try (do 3 right; left; reflexivity);
      try (do 4 right; left; reflexivity);
      try (do 5 right; left; reflexivity).
    - exists "timeseries".
      pose proof (fields_ok_in d _ "measurement_type"
                    (Some "measurementType") false
                    (TLiteral ["timeseries"]) H) as Hf.
      unfold field_input in Hf. rewrite Hx in Hf. apply Hf.
      right. left. reflexivity.
    - exists "relaxometry_mri".
      pose proof (fields_ok_in d _ "measurement_type"
                    (Some "measurementType") false
                    (TLiteral ["relaxometry_mri"]) H) as Hf.
      unfold field_input in Hf. rewrite Hx in Hf. apply Hf.
      right. left. reflexivity. }
  destruct Hshared as (H1 & (tag & H2) & H3 & H4 & H5 & H6).
  unfold base.BaseMeasurement. rewrite validate_model, fields_ok_verdicts.
  cbn [forallb]. rewrite H1, H3, H4, H5, H6. simpl.
  unfold field_verdict, field_input. simpl. rewrite Hx.
  apply literal_valid in H2. now destruct H2 as (s & -> & _).
Qed.

Lemma variant_is_base_measurement_witness :
  Dict.mem "measurementType"
    [("measurementType", JStr "timeseries"); ("specificMeasure", JStr "eeg")]
  = true
  /\ model_validate timeseries.TimeseriesMeasurement timeseries_eeg = true
  /\ model_validate base.BaseMeasurement timeseries_eeg = true.
Proof.
  split; [reflexivity|]. split; [reflexivity|].
  apply (variant_is_base_measurement timeseries.TimeseriesMeasurement
           [("measurementType", JStr "timeseries");
            ("specificMeasure", JStr "eeg")]).
  - left. reflexivity.
  - reflexivity.
  - reflexivity.
Defined.

(** ** Checks the classes do not make *)

(** X19.  The declared [length] of a VectorData is only bounded below by
    1: the document is accepted exactly when the values are valid floats,
    at least one is given and the length is at least 1, whatever the
    number of values. *)
Theorem vector_length_not_compared :
  forall (values : list json) (n : Z),
    model_validate vector_data.VectorData
      (vector_doc_with_length values (JInt n))
    = forallb (validate Float) values
      && (1 <=? List.length values)%nat
      && (1 <=? n)%Z.
Proof.
  intros values n. unfold model_validate, vector_doc_with_length.
  cbn -[Z.leb]. rewrite !andb_true_r. f_equal. f_equal.
  unfold length_ok. now destruct values.
Qed.

(** X20.  The aggregate classes check each field on its own.  A confidence
    interval is accepted whatever the order of [lower] and [upper]; a
    statistical test is accepted exactly when its p-value lies in [0, 1],
    whatever [alpha] is and whether or not [significant] agrees with
    them. *)
Theorem aggregate_fields_independent :
  (forall lower upper : Q,
      model_validate aggregate.ConfidenceInterval (interval_doc lower upper)
      = true)
  /\ (forall (p alpha : Q) (significant : bool),
         model_validate aggregate.StatisticalTest
           (flagged_test_doc p alpha significant) = true
         <-> (0 <= p <= 1)%Q).
Proof.
  split.
  - intros lower upper. reflexivity.
  - intros p alpha significant. rewrite <- in_bounds_between.
    unfold model_validate, flagged_test_doc. cbn -[in_bounds].
    now rewrite andb_true_r.
Qed.

(** X21.  A Participant document is accepted exactly when its [status] is
    one of the four declared strings; an exclusion reason is neither
    required with the status ["excluded"] nor refused with another
    status. *)
Theorem participant_status_and_reason :
  forall (status : string) (reason : option string),
    model_validate participant.Participant
      (participant_status_doc status reason)
    = str_mem status PARTICIPATION_STATUSES.
Proof.
  intros status reason. unfold model_validate, participant_status_doc.
  destruct reason as [r|]; cbn -[str_mem PARTICIPATION_STATUSES];
    unfold PARTICIPATION_STATUSES;
    now destruct (str_mem status
                    ["active"; "completed"; "withdrawn"; "excluded"]).
Qed.

(** ** Version patterns *)

Lemma dotted_two_not_one l :
  api_descriptor.dotted_digits 2 l = true ->
  api_descriptor.dotted_digits 1 l = false.
Proof.
  simpl. destruct (span_decimal l) as [[|c ds] [|x r]]; auto.
  destruct (x =? FULL_STOP)%N; auto.
Qed.

Lemma dotted_three_not_two l :
  api_descriptor.dotted_digits 3 l = true ->
  api_descriptor.dotted_digits 2 l = false.
Proof.
  change (api_descriptor.dotted_digits 3 l)
    with (match span_decimal l with
          | (_ :: _, []) => false
          | (_ :: _, c :: r) =>
              if (c =? FULL_STOP)%N
              then api_descriptor.dotted_digits 2 r
              else false
          | _ => false
          end).
  change (api_descriptor.dotted_digits 2 l)
    with (match span_decimal l with
          | (_ :: _, []) => false
          | (_ :: _, c :: r) =>
              if (c =? FULL_STOP)%N
              then api_descriptor.dotted_digits 1 r
              else false
          | _ => false
          end).
  destruct (span_decimal l) as [[|c ds] [|x r]]; auto.
  destruct (x =? FULL_STOP)%N; auto.
  apply dotted_two_not_one.
Qed.

(** X22.  The two version patterns of the API descriptor exclude each
    other: a string accepted as [version] (three dotted groups of digits)
    is not accepted as [rapSpecVersion] (two groups), and conversely.  A
    digit is a decimal digit of any script, as the pattern engine reads
    [\d]: ["1.0.0"] and its spelling in Arabic-Indic digits are versions,
    ["1.0"] and its spelling in fullwidth digits are specification
    versions, and a trailing newline is not overlooked. *)
Theorem version_patterns_disjoint :
  forall s : string,
    (api_descriptor.version_pattern s = true ->
     api_descriptor.rap_spec_version_pattern s = false)
    /\ (api_descriptor.rap_spec_version_pattern s = true ->
        api_descriptor.version_pattern s = false).
Proof.
  intros s.
  unfold api_descriptor.version_pattern,
    api_descriptor.rap_spec_version_pattern.
  destruct (code_points s) as [l|]; [|split; reflexivity].
  pose proof (dotted_three_not_two l) as H.
  split; [exact H|].
  intros H2. destruct (api_descriptor.dotted_digits 3 l) eqn:E; auto.
  rewrite (H eq_refl) in H2. discriminate.
Qed.

Lemma version_patterns_disjoint_witness :
  api_descriptor.version_pattern "1.0.0" = true
  /\ api_descriptor.rap_spec_version_pattern "1.0.0" = false.
Proof.
  split; [reflexivity|].
  apply (proj1 (version_patterns_disjoint "1.0.0")). reflexivity.
Defined.

(** ** Unknown keys and nested constraints, continued *)

(** X23.  No class of the package forbids extra fields: for every class,
    nested value classes included, a key that names no field of the class
    leaves the verdict on a document unchanged, wherever the key
    stands. *)
Theorem unknown_key_ignored_every_class :
  forall (cls : ftype) (d1 d2 : pydict) (k : string) (v : json),
    In cls package_classes ->
    known_key cls k = false ->
    model_validate cls (JObj (d1 ++ (k, v) :: d2)%list)
    = model_validate cls (JObj (d1 ++ d2)%list).
Proof.
  intros cls d1 d2 k v Hcls Hk.
  destruct (package_class cls Hcls) as [Ecls _].
  unfold model_validate. rewrite Ecls. apply unknown_key_ignored.
  exact Hk.
Qed.

Lemma unknown_key_ignored_every_class_witness :
  In research_product.ParticipantReference package_classes
  /\ known_key research_product.ParticipantReference "nickname" = false
  /\ model_validate research_product.ParticipantReference
       (JObj ([("@id", JStr "https://example.org/participants/sub-01")]
              ++ ("nickname", JStr "x") :: [("identifier", JStr "sub-01")])%list)
     = model_validate research_product.ParticipantReference
         (JObj ([("@id", JStr "https://example.org/participants/sub-01")]
                ++ [("identifier", JStr "sub-01")])%list).
Proof.
  assert (Hin : In research_product.ParticipantReference package_classes).
  { do 24 right. left. reflexivity. }
  split; [exact Hin|]. split; [reflexivity|].
  apply (unknown_key_ignored_every_class
           research_product.ParticipantReference
           [("@id", JStr "https://example.org/participants/sub-01")]
           [("identifier", JStr "sub-01")] "nickname" (JStr "x") Hin).
  reflexivity.
Defined.

(** X24.  Bounds of a variant hold through the union: in a ResearchProduct
    that validates and whose measurement is tagged ["relaxometry_mri"],
    a flip angle given as a float in the acquisition parameters lies in
    [0, 180]. *)
Theorem research_product_flip_angle_bounded :
  forall (d m a : pydict) (q : Q),
    model_validate research_product.ResearchProduct (JObj d) = true ->
    Dict.get "measurement" d = Some (JObj m) ->
    Dict.get "measurementType" m = Some (JStr "relaxometry_mri") ->
    Dict.get "acquisitionParameters" m = Some (JObj a) ->
    Dict.get "flipAngle" a = Some (JFloat q) ->
    (0 <= q <= 180)%Q.
Proof.
  intros d m a q H Hm Htag Ha Hq.
  unfold model_validate, research_product.ResearchProduct in H.
  rewrite validate_model in H.
  pose proof (fields_ok_in d _ "measurement" None true
                (TUnion [relaxometry_mri.RelaxometryMRIMeasurement;
                         timeseries.TimeseriesMeasurement]) H) as H1.
  unfold field_input in H1. rewrite Hm in H1.
  assert (H1' := H1 ltac:(do 8 right; left; reflexivity)). clear H1.
  rewrite validate_union2 in H1'.
  rewrite (timeseries_rejects_other_tag _ _ Htag) in H1' by discriminate.
  rewrite orb_false_r in H1'.
  unfold relaxometry_mri.RelaxometryMRIMeasurement, subclass in H1'.
  rewrite validate_model in H1'.
  pose proof (fields_ok_in m _ "acquisition_parameters"
                (Some "acquisitionParameters") false
                (Optional relaxometry_mri.AcquisitionParameters) H1') as H2.
  unfold field_input in H2. rewrite Ha in H2.
  assert (H2' := H2 ltac:(do 11 right; left; reflexivity)). clear H2.
  unfold Optional in H2'. rewrite validate_optional_obj in H2'.
  unfold relaxometry_mri.AcquisitionParameters in H2'.
  rewrite validate_model in H2'.
  pose proof (fields_ok_in a _ "flip_angle" (Some "flipAngle") false
                (TOptional (TFloat (between 0 180))) H2') as H3.
  unfold field_input in H3. rewrite Hq in H3.
  assert (H3' := H3 ltac:(do 6 right; left; reflexivity)).
  apply in_bounds_between. exact H3'.
Qed.

Lemma research_product_flip_angle_bounded_witness :
  model_validate research_product.ResearchProduct
    (JObj (product_doc (participant_ref "sub-01")
             (relaxometry_doc (JFloat 90)))) = true
  /\ model_validate research_product.ResearchProduct
       (JObj (product_doc (participant_ref "sub-01")
                (relaxometry_doc (JFloat 181)))) = false
  /\ (0 <= 90 <= 180)%Q.
Proof.
  split; [reflexivity|]. split; [reflexivity|].
  apply (research_product_flip_angle_bounded
           (product_doc (participant_ref "sub-01")
              (relaxometry_doc (JFloat 90)))
           [("measurementType", JStr "relaxometry_mri");
            ("specificMeasure", JStr "t1_relaxation_time");
            ("acquisitionParameters", JObj [("flipAngle", JFloat 90)])]
           [("flipAngle", JFloat 90)] 90);
    reflexivity.
Defined.
